(** * rs485main.c: Modbus-RTU pressure poll on an STC89C52RC, shallow embedding

    The firmware polls a film pressure transmitter over RS485 every 100 ms,
    checks the 7-byte answer (header and CRC16) and prints the reading on a
    1602 LCD.  This file embeds the C source function by function and proves
    the properties of the CRC engine, the poll trigger, the frame receiver and
    the response validator.

    Machine integers: [uchar] is 8 bits and [uint] is 16 bits (Keil C51).
    Both are carried as [Z]; every store into a variable of that type is
    written with its truncation ([u8], [u16]).  Hardware effects (LCD bus
    writes, UART transmissions, the RS485 direction pin) are recorded in
    order in the [hw] trace of the machine state. *)

From Stdlib Require Import ZArith Lia.
From stdpp Require Import base list strings.

Local Open Scope Z_scope.

(** ** Machine integers *)

Definition u8 (z : Z) : Z := z mod 256.
Definition u16 (z : Z) : Z := z mod 65536.

Definition is_u8 (z : Z) : Prop := 0 <= z < 256.
Definition is_u8b (z : Z) : bool := (0 <=? z) && (z <? 256).

Definition TRUE : Z := 1.
Definition FALSE : Z := 0.

(** ** CRC tables (lines 40-97) *)

Definition auchCRCHi : list Z := [
    0x00; 0xC1; 0x81; 0x40; 0x01; 0xC0; 0x80; 0x41; 0x01; 0xC0;
    0x80; 0x41; 0x00; 0xC1; 0x81; 0x40; 0x01; 0xC0; 0x80; 0x41;
    0x00; 0xC1; 0x81; 0x40; 0x00; 0xC1; 0x81; 0x40; 0x01; 0xC0;
    0x80; 0x41; 0x01; 0xC0; 0x80; 0x41; 0x00; 0xC1; 0x81; 0x40;
    0x00; 0xC1; 0x81; 0x40; 0x01; 0xC0; 0x80; 0x41; 0x00; 0xC1;
    0x81; 0x40; 0x01; 0xC0; 0x80; 0x41; 0x01; 0xC0; 0x80; 0x41;
    0x00; 0xC1; 0x81; 0x40; 0x01; 0xC0; 0x80; 0x41; 0x00; 0xC1;
    0x81; 0x40; 0x00; 0xC1; 0x81; 0x40; 0x01; 0xC0; 0x80; 0x41;
    0x00; 0xC1; 0x81; 0x40; 0x01; 0xC0; 0x80; 0x41; 0x01; 0xC0;
    0x80; 0x41; 0x00; 0xC1; 0x81; 0x40; 0x00; 0xC1; 0x81; 0x40;
    0x01; 0xC0; 0x80; 0x41; 0x01; 0xC0; 0x80; 0x41; 0x00; 0xC1;
    0x81; 0x40; 0x01; 0xC0; 0x80; 0x41; 0x00; 0xC1; 0x81; 0x40;
    0x00; 0xC1; 0x81; 0x40; 0x01; 0xC0; 0x80; 0x41; 0x01; 0xC0;
    0x80; 0x41; 0x00; 0xC1; 0x81; 0x40; 0x00; 0xC1; 0x81; 0x40;
    0x01; 0xC0; 0x80; 0x41; 0x00; 0xC1; 0x81; 0x40; 0x01; 0xC0;
    0x80; 0x41; 0x01; 0xC0; 0x80; 0x41; 0x00; 0xC1; 0x81; 0x40;
    0x00; 0xC1; 0x81; 0x40; 0x01; 0xC0; 0x80; 0x41; 0x01; 0xC0;
    0x80; 0x41; 0x00; 0xC1; 0x81; 0x40; 0x01; 0xC0; 0x80; 0x41;
    0x00; 0xC1; 0x81; 0x40; 0x00; 0xC1; 0x81; 0x40; 0x01; 0xC0;
    0x80; 0x41; 0x00; 0xC1; 0x81; 0x40; 0x01; 0xC0; 0x80; 0x41;
    0x01; 0xC0; 0x80; 0x41; 0x00; 0xC1; 0x81; 0x40; 0x01; 0xC0;
    0x80; 0x41; 0x00; 0xC1; 0x81; 0x40; 0x00; 0xC1; 0x81; 0x40;
    0x01; 0xC0; 0x80; 0x41; 0x01; 0xC0; 0x80; 0x41; 0x00; 0xC1;
    0x81; 0x40; 0x00; 0xC1; 0x81; 0x40; 0x01; 0xC0; 0x80; 0x41;
    0x00; 0xC1; 0x81; 0x40; 0x01; 0xC0; 0x80; 0x41; 0x01; 0xC0;
    0x80; 0x41; 0x00; 0xC1; 0x81; 0x40 ].

Definition auchCRCLo : list Z := [
    0x00; 0xC0; 0xC1; 0x01; 0xC3; 0x03; 0x02; 0xC2; 0xC6; 0x06;
    0x07; 0xC7; 0x05; 0xC5; 0xC4; 0x04; 0xCC; 0x0C; 0x0D; 0xCD;
    0x0F; 0xCF; 0xCE; 0x0E; 0x0A; 0xCA; 0xCB; 0x0B; 0xC9; 0x09;
    0x08; 0xC8; 0xD8; 0x18; 0x19; 0xD9; 0x1B; 0xDB; 0xDA; 0x1A;
    0x1E; 0xDE; 0xDF; 0x1F; 0xDD; 0x1D; 0x1C; 0xDC; 0x14; 0xD4;
    0xD5; 0x15; 0xD7; 0x17; 0x16; 0xD6; 0xD2; 0x12; 0x13; 0xD3;
    0x11; 0xD1; 0xD0; 0x10; 0xF0; 0x30; 0x31; 0xF1; 0x33; 0xF3;
    0xF2; 0x32; 0x36; 0xF6; 0xF7; 0x37; 0xF5; 0x35; 0x34; 0xF4;
    0x3C; 0xFC; 0xFD; 0x3D; 0xFF; 0x3F; 0x3E; 0xFE; 0xFA; 0x3A;
    0x3B; 0xFB; 0x39; 0xF9; 0xF8; 0x38; 0x28; 0xE8; 0xE9; 0x29;
    0xEB; 0x2B; 0x2A; 0xEA; 0xEE; 0x2E; 0x2F; 0xEF; 0x2D; 0xED;
    0xEC; 0x2C; 0xE4; 0x24; 0x25; 0xE5; 0x27; 0xE7; 0xE6; 0x26;
    0x22; 0xE2; 0xE3; 0x23; 0xE1; 0x21; 0x20; 0xE0; 0xA0; 0x60;
    0x61; 0xA1; 0x63; 0xA3; 0xA2; 0x62; 0x66; 0xA6; 0xA7; 0x67;
    0xA5; 0x65; 0x64; 0xA4; 0x6C; 0xAC; 0xAD; 0x6D; 0xAF; 0x6F;
    0x6E; 0xAE; 0xAA; 0x6A; 0x6B; 0xAB; 0x69; 0xA9; 0xA8; 0x68;
    0x78; 0xB8; 0xB9; 0x79; 0xBB; 0x7B; 0x7A; 0xBA; 0xBE; 0x7E;
    0x7F; 0xBF; 0x7D; 0xBD; 0xBC; 0x7C; 0xB4; 0x74; 0x75; 0xB5;
    0x77; 0xB7; 0xB6; 0x76; 0x72; 0xB2; 0xB3; 0x73; 0xB1; 0x71;
    0x70; 0xB0; 0x50; 0x90; 0x91; 0x51; 0x93; 0x53; 0x52; 0x92;
    0x96; 0x56; 0x57; 0x97; 0x55; 0x95; 0x94; 0x54; 0x9C; 0x5C;
    0x5D; 0x9D; 0x5F; 0x9F; 0x9E; 0x5E; 0x5A; 0x9A; 0x9B; 0x5B;
    0x99; 0x59; 0x58; 0x98; 0x88; 0x48; 0x49; 0x89; 0x4B; 0x8B;
    0x8A; 0x4A; 0x4E; 0x8E; 0x8F; 0x4F; 0x8D; 0x4D; 0x4C; 0x8C;
    0x44; 0x84; 0x85; 0x45; 0x87; 0x47; 0x46; 0x86; 0x82; 0x42;
    0x43; 0x83; 0x41; 0x81; 0x80; 0x40 ].

(** ** Faults

    C leaves an access outside an array undefined.  The embedding makes such
    an access an explicit fault instead of inventing a value for it. *)

Inductive fault : Type :=
| MsgOverrun      (* crc16 read past the end of the message buffer *)
| TableOverrun    (* index outside a 256-entry CRC table *)
| BufOverrun      (* write or read outside receBuf[9] *)
| Starved.        (* a busy-wait ran out of interrupt events *)

Inductive result (A : Type) : Type :=
| Ok (a : A)
| Err (f : fault).
Arguments Ok {A} a.
Arguments Err {A} f.

Definition bind {A B : Type} (r : result A) (k : A -> result B) : result B :=
  match r with
  | Ok a => k a
  | Err f => Err f
  end.

Notation "'let*' x ':=' r 'in' k" := (bind r (fun x => k))
  (at level 10, x name, r at level 100, k at level 200).

(** [tbl[i]], faulting with [f] when [i] is outside the array. *)
Definition read (tbl : list Z) (i : Z) (f : fault) : result Z :=
  if i <? 0 then Err f
  else match tbl !! Z.to_nat i with
       | Some v => Ok v
       | None => Err f
       end.

(** ** crc16 (lines 107-120)

    [crc16_loop] is the [while (usDataLen--)] loop: [puchMsg] is the part of
    the message the pointer has not passed yet, [n] the remaining count. *)

Fixpoint crc16_loop (puchMsg : list Z) (n : nat) (uchCRCHi uchCRCLo : Z)
  {struct n} : result (Z * Z) :=
  match n with
  | O => Ok (uchCRCHi, uchCRCLo)
  | S n' =>
      match puchMsg with
      | [] => Err MsgOverrun
      | b :: rest =>
          let uIndex := Z.lxor uchCRCHi b in
          let* th := read auchCRCHi uIndex TableOverrun in
          let* tl := read auchCRCLo uIndex TableOverrun in
          crc16_loop rest n' (u8 (Z.lxor uchCRCLo th)) (u8 tl)
      end
  end.

Definition crc16 (puchMsg : list Z) (usDataLen : Z) : result Z :=
  let* hl := crc16_loop puchMsg (Z.to_nat (u16 usDataLen)) 0xFF 0xFF in
  Ok (u16 (Z.lor (Z.shiftl (fst hl) 8) (snd hl))).

(** ** Hardware effects and machine state (lines 17-32)

    [DelayMs] only burns time and the timer reload registers are written
    with constants; neither is observable here, so neither is recorded. *)

Inductive effect : Type :=
| LcdCmd (cmd : Z)       (* LcdWriteCmd: RS=0, byte latched from P0 *)
| LcdData (dat : Z)      (* LcdWriteData: RS=1, byte latched from P0 *)
| UartTx (date : Z)      (* UART_SendChar: byte shifted out through SBUF *)
| Dir485 (level : Z).    (* RE_485 pin: 1 transmit, 0 receive *)

Record state : Type := mkState {
  UART1_ucRec_Flag : Z;    (* uchar *)
  receBuf : list Z;        (* uchar [9] *)
  receTimeOut : Z;         (* uchar *)
  receCount : Z;           (* uchar *)
  fasongbiaozhi : Z;       (* uchar *)
  Rressure : Z;            (* uint *)
  gCount : Z;              (* uint *)
  crcData : Z;             (* uint *)
  hw : list effect         (* effects so far, oldest first *)
}.

Definition set_UART1_ucRec_Flag (v : Z) (s : state) : state :=
  mkState v (receBuf s) (receTimeOut s) (receCount s) (fasongbiaozhi s)
          (Rressure s) (gCount s) (crcData s) (hw s).
Definition set_receBuf (v : list Z) (s : state) : state :=
  mkState (UART1_ucRec_Flag s) v (receTimeOut s) (receCount s) (fasongbiaozhi s)
          (Rressure s) (gCount s) (crcData s) (hw s).
Definition set_receTimeOut (v : Z) (s : state) : state :=
  mkState (UART1_ucRec_Flag s) (receBuf s) v (receCount s) (fasongbiaozhi s)
          (Rressure s) (gCount s) (crcData s) (hw s).
Definition set_receCount (v : Z) (s : state) : state :=
  mkState (UART1_ucRec_Flag s) (receBuf s) (receTimeOut s) v (fasongbiaozhi s)
          (Rressure s) (gCount s) (crcData s) (hw s).
Definition set_fasongbiaozhi (v : Z) (s : state) : state :=
  mkState (UART1_ucRec_Flag s) (receBuf s) (receTimeOut s) (receCount s) v
          (Rressure s) (gCount s) (crcData s) (hw s).
Definition set_Rressure (v : Z) (s : state) : state :=
  mkState (UART1_ucRec_Flag s) (receBuf s) (receTimeOut s) (receCount s)
          (fasongbiaozhi s) v (gCount s) (crcData s) (hw s).
Definition set_gCount (v : Z) (s : state) : state :=
  mkState (UART1_ucRec_Flag s) (receBuf s) (receTimeOut s) (receCount s)
          (fasongbiaozhi s) (Rressure s) v (crcData s) (hw s).
Definition set_crcData (v : Z) (s : state) : state :=
  mkState (UART1_ucRec_Flag s) (receBuf s) (receTimeOut s) (receCount s)
          (fasongbiaozhi s) (Rressure s) (gCount s) v (hw s).
Definition emit (e : effect) (s : state) : state :=
  mkState (UART1_ucRec_Flag s) (receBuf s) (receTimeOut s) (receCount s)
          (fasongbiaozhi s) (Rressure s) (gCount s) (crcData s) (hw s ++ [e]).

(** State at reset: globals zeroed by the C start-up code. *)
Definition reset_state : state :=
  mkState 0 (replicate 9 0) 0 0 0 0 0 0 [].

(** ** LCD driver (lines 139-206) *)

Definition LcdWriteCmd (cmd : Z) (s : state) : state := emit (LcdCmd (u8 cmd)) s.

Definition LcdWriteData (dat : Z) (s : state) : state := emit (LcdData (u8 dat)) s.

Definition LcdGotoXY (line column : Z) (s : state) : state :=
  let line := u8 line in
  let column := u8 column in
  let s1 := if line =? 0 then LcdWriteCmd (0x80 + column) s else s in
  if line =? 1 then LcdWriteCmd (0x80 + 0x40 + column) s1 else s1.

Definition LcdPrintNum (num : Z) (s : state) : state :=
  let num := u16 num in
  let s := LcdWriteData (num / 10000 + 48) s in
  let s := LcdWriteData (num mod 10000 / 1000 + 48) s in
  let s := LcdWriteData (num mod 1000 / 100 + 48) s in
  let s := LcdWriteData (num mod 100 / 10 + 48) s in
  LcdWriteData (num mod 10 + 48) s.

(** ** UART_SendChar (lines 256-263)

    The routine masks the serial interrupt, loads SBUF and spins on TI; the
    hardware raises TI once the byte is out, so the call is one transmission. *)

Definition UART_SendChar (date : Z) (s : state) : state := emit (UartTx (u8 date)) s.

(** ** Interrupt handlers (lines 333-375) *)

(** [UartInt]: [TI] and [RI] are the two request bits of the serial port at
    entry, [SBUF] the receive register.  The source stores through
    [receBuf[receCount]] without any test; the test below belongs to the
    embedding and only tells a store inside the array from one outside it. *)
Definition UartInt (TI RI : bool) (SBUF : Z) (s : state) : result state :=
  let s := if TI then set_UART1_ucRec_Flag FALSE s else s in
  if RI then
    let s := set_UART1_ucRec_Flag TRUE s in
    let s := set_receTimeOut 0 s in
    if (0 <=? receCount s) && (receCount s <? Z.of_nat (length (receBuf s))) then
      let s := set_receBuf (<[Z.to_nat (receCount s) := u8 SBUF]> (receBuf s)) s in
      Ok (set_receCount (u8 (receCount s + 1)) s)
    else Err BufOverrun
  else Ok s.

Definition Timer0 (s : state) : state :=
  let s := set_gCount (u16 (gCount s + 1)) s in
  let s := set_receTimeOut (u8 (receTimeOut s + 1)) s in
  let s := if receTimeOut s >? 100 then set_receTimeOut 100 s else s in
  if gCount s >? 100 then set_fasongbiaozhi 1 (set_gCount 0 s) else s.

Inductive irq : Type :=
| IrqTimer0
| IrqUart (TI RI : bool) (SBUF : Z).

Definition handle (e : irq) (s : state) : result state :=
  match e with
  | IrqTimer0 => Ok (Timer0 s)
  | IrqUart TI RI SBUF => UartInt TI RI SBUF s
  end.

(** Interrupts served back to back, as between two main-loop statements. *)
Fixpoint run_irqs (evs : list irq) (s : state) : result state :=
  match evs with
  | [] => Ok s
  | e :: evs' => let* s' := handle e s in run_irqs evs' s'
  end.

(** ** main loop (lines 279-323) *)

(** Lines 281-296: the poll request, run without preemption. *)
Definition main_send (s : state) : state :=
  if fasongbiaozhi s =? 1 then
    let s := emit (Dir485 1) s in
    let s := UART_SendChar 0x01 s in
    let s := UART_SendChar 0x03 s in
    let s := UART_SendChar 0x00 s in
    let s := UART_SendChar 0x00 s in
    let s := UART_SendChar 0x00 s in
    let s := UART_SendChar 0x01 s in
    let s := UART_SendChar 0x84 s in
    let s := UART_SendChar 0x0A s in
    let s := emit (Dir485 0) s in
    let s := set_fasongbiaozhi 0 s in
    set_gCount 0 s
  else s.

(** Lines 302-306: the busy-wait.  The loop body reads two globals and
    changes nothing; the state moves only through the interrupts that
    preempt it.  [evs] gives, pass by pass, the interrupts served since the
    previous pass: none, one or several.  The passes that were not needed
    are handed back. *)
Fixpoint main_wait (evs : list (list irq)) (s : state)
  : result (state * list (list irq)) :=
  if receCount s <=? 7 then
    if receTimeOut s >=? 10 then Ok (s, evs)
    else
      match evs with
      | [] => Err Starved
      | batch :: evs' => let* s' := run_irqs batch s in main_wait evs' s'
      end
  else Ok (s, evs).

Definition rd (s : state) (i : Z) : result Z := read (receBuf s) i BufOverrun.

(** Lines 308-318: header check, CRC check, decode, display. *)
Definition main_validate (s : state) : result state :=
  let* b0 := rd s 0 in
  if b0 =? 0x01 then
    let* b1 := rd s 1 in
    if b1 =? 0x03 then
      let* b2 := rd s 2 in
      if b2 =? 0x02 then
        let* c := crc16 (receBuf s) 5 in
        let s := set_crcData c s in
        let* b6 := rd s 6 in
        let* b5 := rd s 5 in
        if crcData s =? u16 (b6 + b5 * 256) then
          let* b3 := rd s 3 in
          let* b4 := rd s 4 in
          let s := set_Rressure (u16 (b3 * 256 + b4)) s in
          let s := LcdGotoXY 1 5 s in
          Ok (LcdPrintNum (Rressure s) s)
        else Ok s
      else Ok s
    else Ok s
  else Ok s.

(** Lines 320-321. *)
Definition main_rx_reset (s : state) : state :=
  set_receCount 0 (set_UART1_ucRec_Flag FALSE s).

(** Lines 300-322: the receive-processing block.  Interrupts are taken
    during its busy-wait, where the program depends on them; lines 308-321
    are run without preemption. *)
Definition main_receive (evs : list (list irq)) (s : state)
  : result (state * list (list irq)) :=
  if UART1_ucRec_Flag s =? TRUE then
    let* w := main_wait evs s in
    let* s := main_validate (fst w) in
    Ok (main_rx_reset s, snd w)
  else Ok (s, evs).

(** One pass of [while(1)]. *)
Definition main_loop_body (evs : list (list irq)) (s : state)
  : result (state * list (list irq)) :=
  main_receive evs (main_send s).

(** ** Reading the model: observations and invariants *)

(** Bytes put on the serial line, in order. *)
Definition tx_bytes (t : list effect) : list Z :=
  omap (fun e => match e with UartTx b => Some b | _ => None end) t.

(** The characters of a string as LCD data writes. *)
Definition lcd_text (str : string) : list effect :=
  map (fun a => LcdData (Z.of_nat (Ascii.nat_of_ascii a))) (String.list_ascii_of_string str).

(** The request of lines 285-292 as one frame. *)
Definition request_frame : list Z := [0x01; 0x03; 0x00; 0x00; 0x00; 0x01; 0x84; 0x0A].

(** Type invariant of the globals: the array has its 9 cells and every
    variable holds a value of its C type. *)
Record wf (s : state) : Prop := mkWf {
  wf_len : length (receBuf s) = 9%nat;
  wf_buf : Forall is_u8 (receBuf s);
  wf_count : is_u8 (receCount s);
  wf_timeout : is_u8 (receTimeOut s);
  wf_gcount : 0 <= gCount s < 65536
}.

Definition byte_at (buf : list Z) (i : nat) : Z := default 0 (buf !! i).

(** The two conditions of lines 308 and 311 as predicates on the buffer. *)
Definition header_ok (buf : list Z) : bool :=
  (byte_at buf 0 =? 0x01) && (byte_at buf 1 =? 0x03) && (byte_at buf 2 =? 0x02).

Definition crc_ok (buf : list Z) : bool :=
  match crc16 buf 5 with
  | Ok c => c =? byte_at buf 5 * 256 + byte_at buf 6
  | Err _ => false
  end.

(** The two ways out of [main_validate] once the header has passed: the
    frame dropped after the CRC comparison, or decoded and displayed
    ([LcdGotoXY 1 5] is the single command 0xC5). *)
Definition rejected (c : Z) (s : state) : state := set_crcData c s.

Definition accepted (c : Z) (s : state) : state :=
  let p := byte_at (receBuf s) 3 * 256 + byte_at (receBuf s) 4 in
  LcdPrintNum p (LcdWriteCmd 0xC5 (set_Rressure p (set_crcData c s))).

(** Number of received-byte interrupts in a run, and the interrupts that
    move the receiver forward (a timer tick or a received byte). *)
Definition is_rx (e : irq) : bool :=
  match e with IrqUart _ RI _ => RI | IrqTimer0 => false end.

Definition rx_count (evs : list irq) : Z := Z.of_nat (length (List.filter is_rx evs)).

Definition is_progress (e : irq) : bool :=
  match e with IrqUart _ RI _ => RI | IrqTimer0 => true end.

(** A pass of the busy-wait during which time did not stand still and the
    line did not outrun the loop: at least one tick or byte was served, and
    at most two bytes. *)
Definition steady (batch : list irq) : bool :=
  existsb is_progress batch && (rx_count batch <=? 2).

(** Upper bound on the passes the busy-wait of lines 302-306 can still make
    before it leaves: each received byte below the eighth allows ten more
    ticks. *)
Definition wait_budget (s : state) : Z :=
  if receCount s <=? 7 then
    if receTimeOut s >=? 10 then 0
    else (7 - receCount s) * 10 + (10 - receTimeOut s)
  else 0.

(** The globals at reset with a given receive buffer. *)
Definition with_buffer (buf : list Z) : state := set_receBuf buf reset_state.

(** [n] timer interrupts in a row. *)
Definition ticks (n : nat) (s : state) : state := Nat.iter n Timer0 s.

(** The interrupt of one received byte. *)
Definition rx (b : Z) : irq := IrqUart false true b.

(** ** CRC16 as the specification words it

    High and low running bytes start at 0xFF; each input byte selects
    index = high XOR byte, then high := low XOR auchCRCHi[index] and
    low := auchCRCLo[index]; the result is (high << 8) | low. *)

Definition crc16_step (st : Z * Z) (b : Z) : Z * Z :=
  let index := Z.lxor (fst st) b in
  (Z.lxor (snd st) (byte_at auchCRCHi (Z.to_nat index)), byte_at auchCRCLo (Z.to_nat index)).

Definition crc16_spec (bytes : list Z) : Z :=
  let st := fold_left crc16_step bytes (0xFF, 0xFF) in
  Z.lor (Z.shiftl (fst st) 8) (snd st).

(** Bit-serial CRC-16 with the reflected Modbus polynomial 0xA001 and
    initial value 0xFFFF: the checksum a Modbus slave appends, low byte
    first. *)
Definition crc_shift (c : Z) : Z :=
  if Z.testbit c 0 then Z.lxor (Z.shiftr c 1) 0xA001 else Z.shiftr c 1.

Definition crc_byte (c b : Z) : Z := Nat.iter 8 crc_shift (Z.lxor c b).

Definition crc16_modbus (bytes : list Z) : Z := fold_left crc_byte bytes 0xFFFF.

(** ** LCD start-up and string output (lines 171-229)

    [UART_Int] (lines 233-251) only programs special function registers of
    the serial port and the timers, and [DelayMs] (lines 126-131) only burns
    time; the state carries neither, so neither is embedded. *)

Definition LcdInit (s : state) : state :=
  let s := LcdWriteCmd 0x38 s in
  let s := LcdWriteCmd 0x0C s in
  let s := LcdWriteCmd 0x06 s in
  LcdWriteCmd 0x01 s.

(** A C string literal as it lies in memory: its characters, then NUL. *)
Definition c_string (str : string) : list Z :=
  map (fun a => Z.of_nat (Ascii.nat_of_ascii a)) (String.list_ascii_of_string str) ++ [0].

(** [LcdPrintStr]: [str] is the memory from the pointer on.  The loop stops
    at the first NUL; [None] when it runs off the memory given without
    meeting one. *)
Fixpoint LcdPrintStr (str : list Z) (s : state) : option state :=
  match str with
  | [] => None
  | c :: rest => if c =? 0 then Some s else LcdPrintStr rest (LcdWriteData c s)
  end.

Definition LcdShowInit (s : state) : option state :=
  match LcdPrintStr (c_string "    Rressure   ") (LcdGotoXY 0 0 s) with
  | Some s => LcdPrintStr (c_string "           g    ") (LcdGotoXY 1 0 s)
  | None => None
  end.

(** Lines 275-277 of [main], up to the register set-up of [UART_Int]. *)
Definition main_init (s : state) : option state := LcdShowInit (LcdInit s).

(** ** The running system

    After start-up the machine moves by an interrupt taken between two
    passes of the main loop, or by one pass of the main loop (with the
    interrupts that preempt its busy-wait).  A fault ends the run. *)

Inductive step : state -> state -> Prop :=
| step_irq (e : irq) (s s' : state) :
    handle e s = Ok s' -> step s s'
| step_pass (evs evs' : list (list irq)) (s s' : state) :
    main_loop_body evs s = Ok (s', evs') -> step s s'.

Inductive reachable : state -> Prop :=
| reach_boot (s0 : state) : main_init reset_state = Some s0 -> reachable s0
| reach_step (s s' : state) : reachable s -> step s s' -> reachable s'.

(** ** Vocabulary of the further properties *)

(** The bytes delivered by the received-byte interrupts of a run, in order,
    as the handler stores them. *)
Definition rx_bytes (evs : list irq) : list Z :=
  omap (fun e => match e with IrqUart _ true b => Some (u8 b) | _ => None end) evs.

(** The five decimal digits of [p], most significant first, as ASCII codes,
    and the number a list of such codes denotes. *)
Definition digits5 (p : Z) : list Z :=
  map (fun k => 48 + p / 10 ^ k mod 10) [4; 3; 2; 1; 0].

Definition decimal (codes : list Z) : Z :=
  fold_left (fun acc d => acc * 10 + (d - 48)) codes 0.

(** The two things the firmware does to its peripherals once started: a
    poll request on the RS485 line, and a display update. *)
Definition poll_chunk : list effect :=
  Dir485 1 :: map UartTx request_frame ++ [Dir485 0].

Definition display_chunk (p : Z) : list effect :=
  LcdCmd 0xC5 :: map LcdData (digits5 p).

Definition is_chunk (c : list effect) : Prop :=
  c = poll_chunk \/ exists p, 0 <= p < 65536 /\ c = display_chunk p.

(** The answer of the transmitter to the poll when it measures [p]: header,
    the two data bytes, and the checksum in the order [crc16] yields it. *)
Definition response_frame (p : Z) : list Z :=
  let body := [0x01; 0x03; 0x02; p / 256; p mod 256] in
  match crc16 body 5 with
  | Ok c => body ++ [c / 256; c mod 256]
  | Err _ => body
  end.

(** Ranges the globals stay in while the system runs. *)
Definition settled (s : state) : Prop :=
  wf s /\ receTimeOut s <= 100 /\ gCount s <= 100 /\
  (fasongbiaozhi s = 0 \/ fasongbiaozhi s = 1) /\
  (UART1_ucRec_Flag s = FALSE \/ UART1_ucRec_Flag s = TRUE) /\
  0 <= Rressure s < 65536 /\ 0 <= crcData s < 65536.

#[local] Arguments crc16 : simpl never.
#[local] Arguments u8 : simpl never.
#[local] Arguments u16 : simpl never.
#[local] Arguments Z.mul : simpl never.
#[local] Arguments Z.add : simpl never.

(** * Proofs *)

(** Runs the straight-line state updates of the driver routines by value,
    leaving arithmetic and list appends as they stand. *)
Ltac run_updates :=
  cbv beta iota zeta delta
    [emit set_UART1_ucRec_Flag set_receBuf set_receTimeOut set_receCount
     set_fasongbiaozhi set_Rressure set_gCount set_crcData
     UART1_ucRec_Flag receBuf receTimeOut receCount fasongbiaozhi Rressure
     gCount crcData hw
     LcdWriteCmd LcdWriteData LcdPrintNum UART_SendChar accepted rejected].

(** ** Truncation and bit operations *)

Lemma u8_id z : is_u8 z -> u8 z = z.
Proof. intros H. apply Z.mod_small. exact H. Qed.

Lemma u8_range z : is_u8 (u8 z).
Proof. unfold is_u8, u8. apply Z.mod_pos_bound. lia. Qed.

Lemma u16_id z : 0 <= z < 65536 -> u16 z = z.
Proof. intros H. apply Z.mod_small. exact H. Qed.

Lemma log2_below n a : 0 < n -> 0 <= a < 2 ^ n -> Z.log2 a < n.
Proof.
  intros Hn [Ha Hb]. destruct (Z.eq_dec a 0) as [-> | Hne].
  - simpl. exact Hn.
  - apply Z.log2_lt_pow2; lia.
Qed.

Lemma lxor_below n a b :
  0 < n -> 0 <= a < 2 ^ n -> 0 <= b < 2 ^ n -> 0 <= Z.lxor a b < 2 ^ n.
Proof.
  intros Hn Ha Hb.
  assert (Hx : 0 <= Z.lxor a b) by (apply Z.lxor_nonneg; lia).
  split; [exact Hx |].
  destruct (Z.eq_dec (Z.lxor a b) 0) as [-> | Hne].
  - apply Z.pow_pos_nonneg; lia.
  - apply Z.log2_lt_pow2; [lia |].
    pose proof (Z.log2_lxor a b ltac:(lia) ltac:(lia)) as Hl.
    pose proof (log2_below n a Hn Ha). pose proof (log2_below n b Hn Hb). lia.
Qed.

Lemma lxor_u8 a b : is_u8 a -> is_u8 b -> is_u8 (Z.lxor a b).
Proof. intros Ha Hb. exact (lxor_below 8 a b ltac:(lia) Ha Hb). Qed.

(** Two bytes packed with shift and or are the same as high * 256 + low. *)
Lemma pack_bytes hi lo :
  is_u8 hi -> is_u8 lo -> Z.lor (Z.shiftl hi 8) lo = hi * 256 + lo.
Proof.
  intros Hh Hl.
  assert (Hd : Z.land (Z.shiftl hi 8) lo = 0).
  { apply Z.bits_inj'. intros n Hn. rewrite Z.land_spec, Z.bits_0.
    destruct (Z_lt_ge_dec n 8) as [Hlt | Hge].
    - rewrite Z.shiftl_spec_low by exact Hlt. reflexivity.
    - assert (Hb : Z.testbit lo n = false).
      { destruct (Z.eq_dec lo 0) as [-> | Hne]; [apply Z.bits_0 |].
        apply Z.bits_above_log2; [apply Hl |].
        pose proof (log2_below 8 lo ltac:(lia) Hl). lia. }
      rewrite Hb. apply andb_false_r. }
  rewrite <- Z.lxor_lor by exact Hd.
  rewrite <- Z.add_nocarry_lxor by exact Hd.
  rewrite Z.shiftl_mul_pow2 by lia. reflexivity.
Qed.

(** ** The CRC tables *)

Lemma auchCRCHi_length : length auchCRCHi = 256%nat.
Proof. reflexivity. Qed.

Lemma auchCRCLo_length : length auchCRCLo = 256%nat.
Proof. reflexivity. Qed.

Lemma is_u8b_spec z : is_u8b z = true -> is_u8 z.
Proof. unfold is_u8b, is_u8. intros H. apply andb_true_iff in H. lia. Qed.

Lemma forallb_u8 (l : list Z) : forallb is_u8b l = true -> Forall is_u8 l.
Proof.
  induction l as [| x l IH]; simpl; intros H; constructor.
  - apply is_u8b_spec. apply andb_true_iff in H. tauto.
  - apply IH. apply andb_true_iff in H. tauto.
Qed.

Lemma auchCRCHi_bytes : Forall is_u8 auchCRCHi.
Proof. apply forallb_u8. vm_compute. reflexivity. Qed.

Lemma auchCRCLo_bytes : Forall is_u8 auchCRCLo.
Proof. apply forallb_u8. vm_compute. reflexivity. Qed.

Lemma byte_at_u8 (tbl : list Z) i : Forall is_u8 tbl -> is_u8 (byte_at tbl i).
Proof.
  intros H. unfold byte_at. destruct (tbl !! i) as [v |] eqn:E; simpl.
  - eapply Forall_lookup_1; eassumption.
  - unfold is_u8. lia.
Qed.

Lemma read_in_range (tbl : list Z) i f :
  0 <= i < Z.of_nat (length tbl) -> read tbl i f = Ok (byte_at tbl (Z.to_nat i)).
Proof.
  intros H. unfold read, byte_at.
  destruct (Z.ltb_spec i 0) as [Hneg | _]; [lia |].
  destruct (lookup_lt_is_Some_2 tbl (Z.to_nat i)) as [v Hv]; [lia |].
  rewrite Hv. reflexivity.
Qed.

(** ** crc16 against its specification *)

Lemma crc16_step_u8 st b :
  is_u8 (snd st) -> is_u8 (fst (crc16_step st b)) /\ is_u8 (snd (crc16_step st b)).
Proof.
  intros Hl. unfold crc16_step; simpl. split.
  - apply lxor_u8; [exact Hl | apply byte_at_u8, auchCRCHi_bytes].
  - apply byte_at_u8, auchCRCLo_bytes.
Qed.

Lemma crc16_fold_u8 bytes st :
  is_u8 (fst st) -> is_u8 (snd st) ->
  is_u8 (fst (fold_left crc16_step bytes st)) /\
  is_u8 (snd (fold_left crc16_step bytes st)).
Proof.
  revert st. induction bytes as [| b bytes IH]; intros st Hh Hl; simpl.
  - split; assumption.
  - destruct (crc16_step_u8 st b Hl) as [H1 H2]. apply IH; assumption.
Qed.

Lemma crc16_loop_spec n : forall puchMsg hi lo,
  is_u8 hi -> is_u8 lo -> Forall is_u8 puchMsg -> (n <= length puchMsg)%nat ->
  crc16_loop puchMsg n hi lo = Ok (fold_left crc16_step (take n puchMsg) (hi, lo)).
Proof.
  induction n as [| n IH]; intros puchMsg hi lo Hh Hl Hm Hn.
  - reflexivity.
  - destruct puchMsg as [| b rest]; [simpl in Hn; lia |].
    inversion Hm as [| ? ? Hb Hrest]; subst.
    pose proof (lxor_u8 hi b Hh Hb) as Hi.
    cbn [crc16_loop take fold_left].
    rewrite (read_in_range auchCRCHi) by (rewrite auchCRCHi_length; unfold is_u8 in Hi; lia).
    rewrite (read_in_range auchCRCLo) by (rewrite auchCRCLo_length; unfold is_u8 in Hi; lia).
    cbn [bind].
    destruct (crc16_step_u8 (hi, lo) b Hl) as [H1 H2].
    unfold crc16_step in H1, H2; cbn [fst snd] in H1, H2.
    rewrite (u8_id _ H1), (u8_id _ H2).
    rewrite IH; [reflexivity | assumption | assumption | assumption | simpl in Hn; lia].
Qed.

Lemma crc16_spec_range bytes : 0 <= crc16_spec bytes < 65536.
Proof.
  unfold crc16_spec.
  destruct (crc16_fold_u8 bytes (0xFF, 0xFF)) as [Hh Hl]; [unfold is_u8; simpl; lia .. |].
  rewrite pack_bytes by assumption. unfold is_u8 in *. lia.
Qed.

(** The loop and the final packing together. *)
Lemma crc16_eq_spec (puchMsg : list Z) (usDataLen : Z) :
  Forall is_u8 puchMsg ->
  0 <= usDataLen <= Z.of_nat (length puchMsg) ->
  usDataLen < 65536 ->
  crc16 puchMsg usDataLen = Ok (crc16_spec (take (Z.to_nat usDataLen) puchMsg)).
Proof.
  intros Hm Hlen Hu.
  unfold crc16. rewrite u16_id by lia.
  rewrite crc16_loop_spec; [| unfold is_u8; lia | unfold is_u8; lia | exact Hm | lia].
  cbn [bind]. f_equal. apply u16_id. apply crc16_spec_range.
Qed.

(** C6.  [crc16(buffer, length)] is a function of the first [length] bytes of
    the buffer alone: whenever [length] stays inside the buffer it returns,
    without fault, the value the specification describes (running bytes
    0xFF/0xFF, index = high XOR byte, high := low XOR auchCRCHi[index],
    low := auchCRCLo[index], result (high << 8) | low), a 16-bit number.
    Two buffers that agree on their first [length] bytes get the same
    checksum. *)
Theorem crc16_refines_spec (puchMsg : list Z) (usDataLen : Z) :
  Forall is_u8 puchMsg ->
  0 <= usDataLen <= Z.of_nat (length puchMsg) ->
  usDataLen < 65536 ->
  crc16 puchMsg usDataLen = Ok (crc16_spec (take (Z.to_nat usDataLen) puchMsg)) /\
  0 <= crc16_spec (take (Z.to_nat usDataLen) puchMsg) < 65536 /\
  forall other : list Z,
    Forall is_u8 other ->
    take (Z.to_nat usDataLen) other = take (Z.to_nat usDataLen) puchMsg ->
    usDataLen <= Z.of_nat (length other) ->
    crc16 other usDataLen = crc16 puchMsg usDataLen.
Proof.
  intros Hm Hlen Hu. split; [| split].
  - apply crc16_eq_spec; assumption.
  - apply crc16_spec_range.
  - intros other Ho Heq Hlo.
    rewrite (crc16_eq_spec other) by (assumption || lia).
    rewrite (crc16_eq_spec puchMsg) by (assumption || lia).
    rewrite Heq. reflexivity.
Qed.

Lemma crc16_refines_spec_witness :
  crc16 [0x01; 0x03; 0x02; 0x01; 0x2C; 0xB8; 0x09] 5
    = Ok (crc16_spec [0x01; 0x03; 0x02; 0x01; 0x2C]).
Proof.
  refine (proj1 (crc16_refines_spec [0x01; 0x03; 0x02; 0x01; 0x2C; 0xB8; 0x09] 5 _ _ _)).
  - apply forallb_u8. reflexivity.
  - simpl. lia.
  - lia.
Defined.

(** ** The tables against the bit-serial CRC

    [crc16] keeps the CRC register split in two bytes and names them the
    other way round: [uchCRCHi] is the low byte of the Modbus CRC (the one
    transmitted first) and [uchCRCLo] the high byte.  Its result is therefore
    the Modbus CRC with its two bytes exchanged, ready to be compared with
    the trailing bytes of a frame read in transmission order. *)

Lemma crc_shift_lxor x y :
  crc_shift (Z.lxor x y) = Z.lxor (crc_shift x) (crc_shift y).
Proof.
  unfold crc_shift. rewrite Z.lxor_spec, Z.shiftr_lxor.
  destruct (Z.testbit x 0), (Z.testbit y 0); cbn [xorb];
    apply Z.bits_inj'; intros n _; rewrite ?Z.lxor_spec;
    destruct (Z.testbit (Z.shiftr x 1) n), (Z.testbit (Z.shiftr y 1) n),
             (Z.testbit 40961 n); reflexivity.
Qed.

Lemma crc_shift_iter_lxor k x y :
  Nat.iter k crc_shift (Z.lxor x y)
    = Z.lxor (Nat.iter k crc_shift x) (Nat.iter k crc_shift y).
Proof.
  induction k as [| k IH]; [reflexivity |].
  rewrite !Nat.iter_succ, IH. apply crc_shift_lxor.
Qed.

Lemma crc_shift_double m : crc_shift (2 * m) = m.
Proof.
  unfold crc_shift. rewrite Z.testbit_even_0.
  rewrite Z.shiftr_div_pow2 by lia. change (2 ^ 1) with 2.
  rewrite Z.mul_comm. apply Z.div_mul. lia.
Qed.

Lemma crc_shift_high_byte h : Nat.iter 8 crc_shift (h * 256) = h.
Proof.
  replace (h * 256) with (2 * (2 * (2 * (2 * (2 * (2 * (2 * (2 * h)))))))) by lia.
  unfold Nat.iter; cbn [nat_rect]. rewrite !crc_shift_double. reflexivity.
Qed.

Lemma split_bytes hi lo :
  0 <= hi -> is_u8 lo -> hi * 256 + lo = Z.lxor (hi * 256) lo.
Proof.
  intros Hh Hl.
  assert (Hd : Z.land (hi * 256) lo = 0).
  { apply Z.bits_inj'. intros n Hn. rewrite Z.land_spec, Z.bits_0.
    destruct (Z_lt_ge_dec n 8) as [Hlt | Hge].
    - replace (hi * 256) with (hi * 2 ^ 8) by lia.
      rewrite Z.mul_pow2_bits_low by lia. reflexivity.
    - assert (Hb : Z.testbit lo n = false).
      { destruct (Z.eq_dec lo 0) as [-> | Hne]; [apply Z.bits_0 |].
        apply Z.bits_above_log2; [apply Hl |].
        pose proof (log2_below 8 lo ltac:(lia) Hl). lia. }
      rewrite Hb. apply andb_false_r. }
  apply Z.add_nocarry_lxor. exact Hd.
Qed.

Lemma tables_are_crc_shift i :
  0 <= i < 256 ->
  Nat.iter 8 crc_shift i
    = byte_at auchCRCLo (Z.to_nat i) * 256 + byte_at auchCRCHi (Z.to_nat i).
Proof.
  intros Hi.
  assert (Hall : forallb (fun n => Nat.iter 8 crc_shift (Z.of_nat n)
                                   =? byte_at auchCRCLo n * 256 + byte_at auchCRCHi n)
                         (seq 0 256) = true) by (vm_compute; reflexivity).
  rewrite forallb_forall in Hall.
  specialize (Hall (Z.to_nat i)). rewrite Z2Nat.id in Hall by lia.
  apply Z.eqb_eq, Hall. apply in_seq. lia.
Qed.

(** One byte: the code's step on (hi, lo) is [crc_byte] on lo * 256 + hi. *)
Lemma crc16_step_is_crc_byte hi lo b :
  is_u8 hi -> is_u8 lo -> is_u8 b ->
  snd (crc16_step (hi, lo) b) * 256 + fst (crc16_step (hi, lo) b)
    = crc_byte (lo * 256 + hi) b.
Proof.
  intros Hh Hl Hb. unfold crc_byte, crc16_step; cbn [fst snd].
  pose proof (lxor_u8 hi b Hh Hb) as Hi.
  pose proof (byte_at_u8 auchCRCHi (Z.to_nat (Z.lxor hi b)) auchCRCHi_bytes) as Hth.
  pose proof (byte_at_u8 auchCRCLo (Z.to_nat (Z.lxor hi b)) auchCRCLo_bytes) as Htl.
  rewrite (split_bytes lo hi) by (unfold is_u8 in *; lia || assumption).
  rewrite Z.lxor_assoc, crc_shift_iter_lxor, crc_shift_high_byte.
  rewrite tables_are_crc_shift by exact Hi.
  rewrite (split_bytes (byte_at auchCRCLo _) (byte_at auchCRCHi _))
    by (unfold is_u8 in *; lia || assumption).
  rewrite (split_bytes (byte_at auchCRCLo _) (Z.lxor lo _))
    by (try apply lxor_u8; unfold is_u8 in *; lia || assumption).
  rewrite <- !Z.lxor_assoc. f_equal. apply Z.lxor_comm.
Qed.

Lemma crc16_fold_is_modbus bytes : forall hi lo,
  is_u8 hi -> is_u8 lo -> Forall is_u8 bytes ->
  snd (fold_left crc16_step bytes (hi, lo)) * 256
    + fst (fold_left crc16_step bytes (hi, lo))
  = fold_left crc_byte bytes (lo * 256 + hi).
Proof.
  induction bytes as [| b bytes IH]; intros hi lo Hh Hl Hb; [reflexivity |].
  inversion Hb as [| ? ? Hb0 Hbs]; subst. cbn [fold_left].
  rewrite <- crc16_step_is_crc_byte by assumption.
  destruct (crc16_step_u8 (hi, lo) b Hl) as [H1 H2].
  destruct (crc16_step (hi, lo) b) as [hi' lo']. apply IH; assumption.
Qed.

(** The value [crc16] computes is the Modbus CRC16 (polynomial 0xA001,
    initial value 0xFFFF) with its low byte in bits 15..8 and its high byte
    in bits 7..0. *)
Lemma crc16_is_swapped_modbus bytes :
  Forall is_u8 bytes ->
  crc16_spec bytes
    = Z.land (crc16_modbus bytes) 0xFF * 256 + Z.shiftr (crc16_modbus bytes) 8.
Proof.
  intros Hb. unfold crc16_spec, crc16_modbus.
  pose proof (crc16_fold_is_modbus bytes 0xFF 0xFF) as Hm.
  destruct (crc16_fold_u8 bytes (0xFF, 0xFF)) as [Hh Hl]; [unfold is_u8; simpl; lia .. |].
  change (fold_left crc_byte bytes 65535)
    with (fold_left crc_byte bytes (255 * 256 + 255)).
  rewrite <- Hm by (assumption || unfold is_u8; lia).
  destruct (fold_left crc16_step bytes (255, 255)) as [hi lo]; cbn [fst snd] in *.
  rewrite pack_bytes by assumption.
  change 255 with (Z.ones 8). rewrite Z.land_ones by lia.
  rewrite Z.shiftr_div_pow2 by lia. change (2 ^ 8) with 256.
  unfold is_u8 in *.
  rewrite <- (Z.mod_unique_pos (lo * 256 + hi) 256 lo hi) by lia.
  rewrite <- (Z.div_unique_pos (lo * 256 + hi) 256 lo hi) by lia.
  reflexivity.
Qed.

Lemma crc16_modbus_range bytes :
  Forall is_u8 bytes -> 0 <= crc16_modbus bytes < 65536.
Proof.
  intros Hb. unfold crc16_modbus.
  pose proof (crc16_fold_is_modbus bytes 0xFF 0xFF) as Hm.
  destruct (crc16_fold_u8 bytes (0xFF, 0xFF)) as [Hh Hl]; [unfold is_u8; simpl; lia .. |].
  change (fold_left crc_byte bytes 65535)
    with (fold_left crc_byte bytes (255 * 256 + 255)).
  rewrite <- Hm by (assumption || unfold is_u8; lia).
  unfold is_u8 in *. lia.
Qed.

(** ** Invariant and frame lemmas for the interrupt handlers *)

Lemma Timer0_wf s : wf s -> wf (Timer0 s).
Proof.
  intros [Hlen Hbuf Hc Ht Hg]. unfold Timer0.
  destruct s as [fl buf to cnt fs pr gc cd t]; simpl in *.
  pose proof (u8_range (to + 1)) as Hto. unfold is_u8 in Hto.
  assert (Hgc : 0 <= u16 (gc + 1) < 65536) by (unfold u16; apply Z.mod_pos_bound; lia).
  destruct (u8 (to + 1) >? 100) eqn:E1; destruct (u16 (gc + 1) >? 100) eqn:E2;
    simpl; rewrite ?E2; simpl; constructor; simpl; try assumption; unfold is_u8; lia.
Qed.

Lemma Timer0_frame s :
  hw (Timer0 s) = hw s /\ Rressure (Timer0 s) = Rressure s /\
  crcData (Timer0 s) = crcData s /\ receBuf (Timer0 s) = receBuf s /\
  receCount (Timer0 s) = receCount s /\
  UART1_ucRec_Flag (Timer0 s) = UART1_ucRec_Flag s.
Proof.
  unfold Timer0. destruct s as [fl buf to cnt fs pr gc cd t]; simpl.
  destruct (u8 (to + 1) >? 100); destruct (u16 (gc + 1) >? 100) eqn:E2;
    simpl; rewrite ?E2; simpl; repeat split; reflexivity.
Qed.

Lemma UartInt_wf TI RI SBUF s s' : wf s -> UartInt TI RI SBUF s = Ok s' -> wf s'.
Proof.
  intros [Hlen Hbuf Hc Ht Hg]. unfold UartInt.
  destruct s as [fl buf to cnt fs pr gc cd t]; simpl in *.
  destruct TI, RI; simpl; try (intros [= <-]; constructor; simpl; assumption);
    (destruct ((0 <=? cnt) && (cnt <? Z.of_nat (length buf))); simpl; [| discriminate];
     intros [= <-]; constructor; simpl;
     [ rewrite length_insert; exact Hlen
     | apply Forall_insert; [exact Hbuf | apply u8_range]
     | apply u8_range
     | unfold is_u8; lia
     | exact Hg ]).
Qed.

Lemma UartInt_frame TI RI SBUF s s' :
  UartInt TI RI SBUF s = Ok s' ->
  hw s' = hw s /\ Rressure s' = Rressure s /\ crcData s' = crcData s.
Proof.
  unfold UartInt. destruct s as [fl buf to cnt fs pr gc cd t]; simpl.
  destruct TI, RI; simpl; try (intros [= <-]; simpl; repeat split; reflexivity);
    (destruct ((0 <=? cnt) && (cnt <? Z.of_nat (length buf))); simpl; [| discriminate];
     intros [= <-]; simpl; repeat split; reflexivity).
Qed.

Lemma handle_wf e s s' : wf s -> handle e s = Ok s' -> wf s'.
Proof.
  destruct e as [| TI RI SBUF]; simpl; intros Hwf H.
  - injection H as <-. apply Timer0_wf, Hwf.
  - eapply UartInt_wf; eassumption.
Qed.

Lemma handle_frame e s s' :
  handle e s = Ok s' ->
  hw s' = hw s /\ Rressure s' = Rressure s /\ crcData s' = crcData s.
Proof.
  destruct e as [| TI RI SBUF]; simpl; intros H.
  - injection H as <-. pose proof (Timer0_frame s). tauto.
  - eapply UartInt_frame; eassumption.
Qed.

(** A received byte with room left in the buffer is stored at the count
    position and advances the count by one. *)
Lemma UartInt_rx_ok TI SBUF s :
  wf s -> receCount s <= 8 ->
  exists s', UartInt TI true SBUF s = Ok s' /\
    receBuf s' = <[Z.to_nat (receCount s) := u8 SBUF]> (receBuf s) /\
    receCount s' = receCount s + 1 /\ receTimeOut s' = 0 /\
    UART1_ucRec_Flag s' = TRUE.
Proof.
  intros [Hlen Hbuf Hc Ht Hg] H8. unfold UartInt.
  destruct s as [fl buf to cnt fs pr gc cd t]; simpl in *.
  assert (E : (0 <=? cnt) && (cnt <? Z.of_nat (length buf)) = true)
    by (apply andb_true_iff; split; [apply Z.leb_le | apply Z.ltb_lt]; unfold is_u8 in Hc; lia).
  destruct TI; simpl; rewrite E; simpl; eexists; (split; [reflexivity |]); simpl;
    repeat split; apply u8_id; unfold is_u8 in *; lia.
Qed.

Lemma UartInt_rx_overrun TI SBUF s :
  wf s -> 9 <= receCount s -> UartInt TI true SBUF s = Err BufOverrun.
Proof.
  intros [Hlen Hbuf Hc Ht Hg] H9. unfold UartInt.
  destruct s as [fl buf to cnt fs pr gc cd t]; simpl in *.
  assert (E : (0 <=? cnt) && (cnt <? Z.of_nat (length buf)) = false)
    by (apply andb_false_iff; right; apply Z.ltb_ge; lia).
  destruct TI; simpl; rewrite E; reflexivity.
Qed.

Lemma UartInt_no_rx TI SBUF s :
  exists s', UartInt TI false SBUF s = Ok s' /\
    receBuf s' = receBuf s /\ receCount s' = receCount s /\
    receTimeOut s' = receTimeOut s.
Proof.
  unfold UartInt. destruct TI; eexists; (split; [reflexivity |]);
    destruct s; simpl; repeat split; reflexivity.
Qed.

Lemma wf_reset_state : wf reset_state.
Proof.
  constructor; simpl; unfold is_u8; try lia.
  apply forallb_u8. reflexivity.
Qed.

(** ** Buffer bounds of the byte-arrival handler *)

Lemma rx_count_nonneg evs : 0 <= rx_count evs.
Proof. unfold rx_count. lia. Qed.

Lemma rx_count_cons e evs :
  rx_count (e :: evs) = (if is_rx e then 1 else 0) + rx_count evs.
Proof. unfold rx_count. simpl. destruct (is_rx e); simpl; lia. Qed.

Lemma run_irqs_in_bounds evs : forall s,
  wf s -> receCount s + rx_count evs <= 9 ->
  exists s', run_irqs evs s = Ok s' /\ wf s' /\
    receCount s' = receCount s + rx_count evs.
Proof.
  induction evs as [| e evs IH]; intros s Hwf Hroom.
  - exists s. unfold rx_count; simpl. split; [reflexivity | split; [exact Hwf | lia]].
  - rewrite rx_count_cons in Hroom |- *. pose proof (rx_count_nonneg evs) as Hn.
    destruct e as [| TI [|] SBUF]; cbn [is_rx] in Hroom |- *; cbn [run_irqs handle].
    + pose proof (Timer0_frame s) as (_ & _ & _ & _ & Hcnt & _).
      destruct (IH (Timer0 s) (Timer0_wf s Hwf) ltac:(lia)) as (s' & Hrun & Hwf' & Hc).
      exists s'. cbn [bind]. split; [exact Hrun | split; [exact Hwf' | lia]].
    + destruct (UartInt_rx_ok TI SBUF s Hwf ltac:(lia)) as (s1 & Hu & _ & Hcnt & _).
      pose proof (UartInt_wf _ _ _ _ _ Hwf Hu) as Hwf1.
      destruct (IH s1 Hwf1 ltac:(lia)) as (s' & Hrun & Hwf' & Hc).
      exists s'. rewrite Hu. cbn [bind]. split; [exact Hrun | split; [exact Hwf' | lia]].
    + destruct (UartInt_no_rx TI SBUF s) as (s1 & Hu & _ & Hcnt & _).
      pose proof (UartInt_wf _ _ _ _ _ Hwf Hu) as Hwf1.
      destruct (IH s1 Hwf1 ltac:(lia)) as (s' & Hrun & Hwf' & Hc).
      exists s'. rewrite Hu. cbn [bind]. split; [exact Hrun | split; [exact Hwf' | lia]].
Qed.

Lemma run_irqs_overrun evs : forall s,
  wf s -> receCount s <= 9 -> 9 < receCount s + rx_count evs ->
  run_irqs evs s = Err BufOverrun.
Proof.
  induction evs as [| e evs IH]; intros s Hwf Hc Hover.
  - unfold rx_count in Hover; simpl in Hover. lia.
  - rewrite rx_count_cons in Hover.
    destruct e as [| TI [|] SBUF]; cbn [is_rx] in Hover; cbn [run_irqs handle].
    + pose proof (Timer0_frame s) as (_ & _ & _ & _ & Hcnt & _).
      cbn [bind]. apply IH; [apply Timer0_wf, Hwf | lia | lia].
    + destruct (Z_le_gt_dec (receCount s) 8) as [H8 | H9].
      * destruct (UartInt_rx_ok TI SBUF s Hwf H8) as (s1 & Hu & _ & Hcnt & _).
        rewrite Hu. cbn [bind].
        apply IH; [eapply UartInt_wf; eassumption | lia | lia].
      * rewrite UartInt_rx_overrun by (assumption || lia). reflexivity.
    + destruct (UartInt_no_rx TI SBUF s) as (s1 & Hu & _ & Hcnt & _).
      rewrite Hu. cbn [bind].
      apply IH; [eapply UartInt_wf; eassumption | lia | lia].
Qed.

(** C9.  The byte-arrival handler writes the incoming byte at
    [receBuf[receCount]] and increments [receCount]; nothing in it compares
    the count with the 9 cells of the buffer.  The write is inside the
    buffer exactly when the count is at most 8 on entry.  Hence, counting
    from a reset of the count to 0, any run of interrupts that delivers at
    most 9 bytes keeps every write in bounds, and a run that delivers more
    writes outside the buffer. *)
Theorem UartInt_write_bounds (s : state) :
  wf s ->
  (forall TI SBUF, receCount s <= 8 ->
     exists s', UartInt TI true SBUF s = Ok s' /\
       receBuf s' = <[Z.to_nat (receCount s) := u8 SBUF]> (receBuf s) /\
       receCount s' = receCount s + 1) /\
  (forall TI SBUF, 9 <= receCount s -> UartInt TI true SBUF s = Err BufOverrun) /\
  (forall evs, receCount s = 0 -> rx_count evs <= 9 ->
     exists s', run_irqs evs s = Ok s' /\ receCount s' = rx_count evs) /\
  (forall evs, receCount s = 0 -> 9 < rx_count evs ->
     run_irqs evs s = Err BufOverrun).
Proof.
  intros Hwf. split; [| split; [| split]].
  - intros TI SBUF H8.
    destruct (UartInt_rx_ok TI SBUF s Hwf H8) as (s' & Hu & Hb & Hc & _).
    exists s'. auto.
  - intros TI SBUF H9. apply UartInt_rx_overrun; assumption.
  - intros evs H0 Hn.
    destruct (run_irqs_in_bounds evs s Hwf ltac:(lia)) as (s' & Hrun & _ & Hc).
    exists s'. split; [exact Hrun | lia].
  - intros evs H0 Hn. apply run_irqs_overrun; [exact Hwf | lia | lia].
Qed.

Lemma UartInt_write_bounds_witness :
  (exists s', run_irqs (replicate 9 (rx 0x55)) reset_state = Ok s' /\ receCount s' = 9) /\
  run_irqs (replicate 10 (rx 0x55)) reset_state = Err BufOverrun.
Proof.
  destruct (UartInt_write_bounds reset_state wf_reset_state) as (_ & _ & Hin & Hout).
  split.
  - apply (Hin (replicate 9 (rx 0x55))); [reflexivity | vm_compute; discriminate].
  - apply (Hout (replicate 10 (rx 0x55))); reflexivity.
Defined.

(** ** The response validator *)

Lemma wf_buf_cells s :
  wf s ->
  exists b0 b1 b2 b3 b4 b5 b6 b7 b8,
    receBuf s = [b0; b1; b2; b3; b4; b5; b6; b7; b8] /\
    Forall is_u8 [b0; b1; b2; b3; b4; b5; b6; b7; b8].
Proof.
  intros [Hlen Hbuf _ _ _]. destruct (receBuf s) as [| b0 l]; [discriminate |].
  do 8 (destruct l as [| ? l]; [discriminate |]).
  destruct l; [| discriminate]. repeat eexists. exact Hbuf.
Qed.

Lemma LcdGotoXY_1_5 s : LcdGotoXY 1 5 s = LcdWriteCmd 0xC5 s.
Proof. reflexivity. Qed.

Lemma hw_accepted c s :
  hw (accepted c s) =
    hw s ++ LcdCmd 0xC5 ::
      (let p := u16 (byte_at (receBuf s) 3 * 256 + byte_at (receBuf s) 4) in
       [LcdData (u8 (p / 10000 + 48)); LcdData (u8 (p mod 10000 / 1000 + 48));
        LcdData (u8 (p mod 1000 / 100 + 48)); LcdData (u8 (p mod 100 / 10 + 48));
        LcdData (u8 (p mod 10 + 48))]).
Proof.
  destruct s as [fl buf to cnt fs pr gc cd t]. run_updates.
  rewrite <- !app_assoc. reflexivity.
Qed.

Lemma hw_accepted_changed c s : hw (accepted c s) <> hw s.
Proof.
  rewrite hw_accepted. intros H. apply (f_equal length) in H.
  rewrite length_app in H. simpl in H. lia.
Qed.

Lemma crc_ok_eq buf c :
  crc16 buf 5 = Ok c -> crc_ok buf = (c =? byte_at buf 5 * 256 + byte_at buf 6).
Proof. intros H. unfold crc_ok. rewrite H. reflexivity. Qed.

(** The comparison of line 311 holds exactly when the two trailing bytes
    are the Modbus CRC16 of the first five, low byte first. *)
Lemma crc_ok_modbus (buf : list Z) :
  Forall is_u8 buf -> (5 <= length buf)%nat ->
  crc_ok buf = true <->
  crc16_modbus (take 5 buf) = byte_at buf 5 + byte_at buf 6 * 256.
Proof.
  intros Hb Hlen.
  pose proof (crc16_eq_spec buf 5 Hb ltac:(lia) ltac:(lia)) as Hc.
  pose proof (crc16_spec_range (take (Z.to_nat 5) buf)) as Hr.
  change (Z.to_nat 5) with 5%nat in Hc, Hr.
  rewrite (crc_ok_eq _ _ Hc), Z.eqb_eq.
  rewrite crc16_is_swapped_modbus in Hr |- * by (apply Forall_take, Hb).
  pose proof (byte_at_u8 buf 5 Hb) as H5. pose proof (byte_at_u8 buf 6 Hb) as H6.
  pose proof (crc16_modbus_range (take 5 buf) (Forall_take _ _ _ Hb)) as Hm.
  set (m := crc16_modbus (take 5 buf)) in *.
  change 255 with (Z.ones 8) in Hr |- *. rewrite Z.land_ones in Hr |- * by lia.
  rewrite Z.shiftr_div_pow2 in Hr |- * by lia. change (2 ^ 8) with 256 in Hr |- *.
  pose proof (Z.div_mod m 256 ltac:(lia)) as Hdm.
  pose proof (Z.mod_pos_bound m 256 ltac:(lia)) as Hmod.
  unfold is_u8 in *. lia.
Qed.

(** What [main_validate] does, case by case, on a well-typed state. *)
Lemma main_validate_cases s :
  wf s ->
  exists c, crc16 (receBuf s) 5 = Ok c /\ 0 <= c < 65536 /\
    main_validate s =
      Ok (if header_ok (receBuf s) then
            if c =? byte_at (receBuf s) 5 * 256 + byte_at (receBuf s) 6
            then accepted c s else rejected c s
          else s).
Proof.
  intros Hwf.
  destruct (wf_buf_cells s Hwf) as (b0 & b1 & b2 & b3 & b4 & b5 & b6 & b7 & b8 & Hb & Hu8).
  pose proof (crc16_eq_spec (receBuf s) 5 (wf_buf s Hwf)
                ltac:(rewrite (wf_len s Hwf); simpl; lia) ltac:(lia)) as Hc.
  pose proof (crc16_spec_range (take (Z.to_nat 5) (receBuf s))) as Hr.
  exists (crc16_spec (take (Z.to_nat 5) (receBuf s))).
  split; [exact Hc |]. split; [exact Hr |].
  set (c := crc16_spec _) in *.
  unfold main_validate, rd, read, header_ok. rewrite Hc.
  destruct s as [fl buf to cnt fs pr gc cd t]; simpl in Hb; subst buf.
  unfold byte_at. simpl.
  repeat match goal with H : Forall _ (_ :: _) |- _ => inversion H; clear H; subst end.
  unfold is_u8 in *.
  destruct (b0 =? 1); [| reflexivity].
  destruct (b1 =? 3); [| reflexivity].
  destruct (b2 =? 2); [| reflexivity]. cbn [andb].
  rewrite (u16_id (b6 + b5 * 256)) by lia.
  replace (b6 + b5 * 256) with (b5 * 256 + b6) by lia.
  destruct (c =? b5 * 256 + b6); [| reflexivity].
  unfold accepted, rejected, byte_at. simpl.
  rewrite (u16_id (b3 * 256 + b4)) by lia. reflexivity.
Qed.

Lemma header_ok_false buf :
  byte_at buf 0 <> 1 \/ byte_at buf 1 <> 3 \/ byte_at buf 2 <> 2 ->
  header_ok buf = false.
Proof.
  unfold header_ok. intros H.
  destruct (Z.eqb_spec (byte_at buf 0) 1); [| reflexivity].
  destruct (Z.eqb_spec (byte_at buf 1) 3); [| reflexivity].
  destruct (Z.eqb_spec (byte_at buf 2) 2); [| reflexivity].
  tauto.
Qed.

(** ** The busy-wait of the receive block *)

Lemma main_wait_eq evs s :
  main_wait evs s =
    if receCount s <=? 7 then
      if receTimeOut s >=? 10 then Ok (s, evs)
      else
        match evs with
        | [] => Err Starved
        | batch :: evs' => let* s' := run_irqs batch s in main_wait evs' s'
        end
    else Ok (s, evs).
Proof. destruct evs; reflexivity. Qed.

Lemma run_irqs_exit batch : forall s s',
  run_irqs batch s = Ok s' ->
  (wf s -> wf s') /\
  hw s' = hw s /\ Rressure s' = Rressure s /\ crcData s' = crcData s.
Proof.
  induction batch as [| e batch IH]; intros s s'; cbn [run_irqs].
  - intros [= <-]. auto.
  - destruct (handle e s) as [s1 |] eqn:He; cbn [bind]; [| discriminate].
    intros Hr. destruct (IH _ _ Hr) as (Hwf & Hhw & Hp & Hcd).
    destruct (handle_frame _ _ _ He) as (Hhw' & Hp' & Hcd').
    split; [intros H; apply Hwf; eapply handle_wf; eassumption |].
    repeat split; congruence.
Qed.

Lemma main_wait_exit evs : forall s s1 evs1,
  main_wait evs s = Ok (s1, evs1) ->
  (wf s -> wf s1) /\
  hw s1 = hw s /\ Rressure s1 = Rressure s /\ crcData s1 = crcData s /\
  (7 < receCount s1 \/ 10 <= receTimeOut s1).
Proof.
  induction evs as [| e evs IH]; intros s s1 evs1; rewrite main_wait_eq;
    destruct (Z.leb_spec (receCount s) 7) as [Hc | Hc];
    try (intros [= <- <-]; split; [auto | repeat split; lia]);
    destruct (Z.geb_spec (receTimeOut s) 10) as [Ht | Ht];
    try (intros [= <- <-]; split; [auto | repeat split; lia]).
  - discriminate.
  - destruct (run_irqs e s) as [s' |] eqn:He; cbn [bind]; [| discriminate].
    intros Hw. destruct (IH _ _ _ Hw) as (Hwf & Hhw & Hp & Hcd & Hex).
    destruct (run_irqs_exit _ _ _ He) as (Hwf' & Hhw' & Hp' & Hcd').
    split; [intros H; apply Hwf, Hwf', H |].
    repeat split; try congruence; exact Hex.
Qed.

(** C5.  A buffer whose first three bytes are not 1, 3, 2 leaves
    [main_validate] with the state exactly as it entered: the CRC is not
    recomputed ([crcData] keeps its value), no pressure is decoded and
    nothing is written to the display.  So in a receive cycle whose
    busy-wait ends on such a buffer, the display trace, the pressure and
    [crcData] at the end of the cycle are those at its start. *)
Theorem bad_header_aborts (s : state) :
  wf s ->
  byte_at (receBuf s) 0 <> 1 \/ byte_at (receBuf s) 1 <> 3 \/ byte_at (receBuf s) 2 <> 2 ->
  main_validate s = Ok s /\
  forall evs s0 evs1,
    UART1_ucRec_Flag s0 = TRUE -> main_wait evs s0 = Ok (s, evs1) ->
    main_receive evs s0 = Ok (main_rx_reset s, evs1) /\
    hw (main_rx_reset s) = hw s0 /\
    Rressure (main_rx_reset s) = Rressure s0 /\
    crcData (main_rx_reset s) = crcData s0.
Proof.
  intros Hwf Hbad.
  assert (Hv : main_validate s = Ok s).
  { destruct (main_validate_cases s Hwf) as (c & _ & _ & Hv).
    rewrite (header_ok_false _ Hbad) in Hv. exact Hv. }
  split; [exact Hv |].
  intros evs s0 evs1 Hflag Hw. unfold main_receive.
  rewrite Hflag, Hw. cbn [Z.eqb TRUE Pos.eqb bind fst snd]. rewrite Hv. cbn [bind].
  destruct (main_wait_exit _ _ _ _ Hw) as (_ & Hhw & Hp & Hcd & _).
  split; [reflexivity |]. destruct s; simpl in *. auto.
Qed.

Lemma wf_with_buffer buf :
  length buf = 9%nat -> forallb is_u8b buf = true -> wf (with_buffer buf).
Proof.
  intros Hlen Hb. constructor; simpl; unfold is_u8; try lia.
  apply forallb_u8, Hb.
Qed.

Lemma bad_header_aborts_witness :
  main_validate (with_buffer [0x02; 0x03; 0x02; 0x01; 0x2C; 0xB8; 0x09; 0; 0])
    = Ok (with_buffer [0x02; 0x03; 0x02; 0x01; 0x2C; 0xB8; 0x09; 0; 0]).
Proof.
  refine (proj1 (bad_header_aborts _ _ _)).
  - apply wf_with_buffer; reflexivity.
  - left. vm_compute. discriminate.
Defined.

Lemma Timer0_timeout s :
  wf s -> receTimeOut s < 100 -> receTimeOut (Timer0 s) = receTimeOut s + 1.
Proof.
  intros [_ _ _ Ht _] H. unfold Timer0.
  destruct s as [fl buf to cnt fs pr gc cd t]; simpl in *. unfold is_u8 in Ht.
  rewrite (u8_id (to + 1)) by (unfold is_u8; lia).
  assert (E : (to + 1 >? 100) = false) by (rewrite Z.gtb_ltb; apply Z.ltb_ge; lia).
  rewrite E. simpl. destruct (u16 (gc + 1) >? 100); reflexivity.
Qed.

Lemma wait_budget_bound s : wf s -> 0 <= wait_budget s <= 80.
Proof.
  intros [_ _ Hc Ht _]. unfold wait_budget, is_u8 in *.
  destruct (Z.leb_spec (receCount s) 7); [| lia].
  destruct (Z.geb_spec (receTimeOut s) 10); lia.
Qed.

Lemma Timer0_timeout_cap s :
  wf s -> receTimeOut s = 100 -> receTimeOut (Timer0 s) = 100.
Proof.
  intros _ H. unfold Timer0.
  destruct s as [fl buf to cnt fs pr gc cd t]; simpl in *. subst to.
  change (u8 (100 + 1) >? 100) with true. simpl.
  destruct (u16 (gc + 1) >? 100); reflexivity.
Qed.

(** Without a received byte the timeout counter can only grow, up to its
    cap, and a tick makes it grow. *)
Lemma run_irqs_no_rx batch : forall s,
  wf s -> rx_count batch = 0 -> receTimeOut s <= 100 ->
  exists s', run_irqs batch s = Ok s' /\ receCount s' = receCount s /\
    receTimeOut s <= receTimeOut s' <= 100 /\
    (existsb is_progress batch = true -> receTimeOut s < 100 ->
     receTimeOut s + 1 <= receTimeOut s').
Proof.
  induction batch as [| e batch IH]; intros s Hwf Hrx Hcap.
  - exists s. cbn [run_irqs existsb]. repeat split; try lia; discriminate.
  - rewrite rx_count_cons in Hrx. pose proof (rx_count_nonneg batch) as Hn.
    destruct e as [| TI [|] SBUF]; cbn [is_rx] in Hrx; [| lia |];
      cbn [run_irqs handle existsb is_progress].
    + pose proof (Timer0_frame s) as (_ & _ & _ & _ & Hcnt & _).
      assert (Hto : receTimeOut s <= receTimeOut (Timer0 s) <= 100 /\
                    (receTimeOut s < 100 -> receTimeOut s + 1 <= receTimeOut (Timer0 s))).
      { destruct (Z_lt_le_dec (receTimeOut s) 100) as [Hlt | Hge].
        - rewrite (Timer0_timeout s Hwf Hlt). lia.
        - rewrite (Timer0_timeout_cap s Hwf ltac:(lia)). lia. }
      destruct (IH (Timer0 s) (Timer0_wf s Hwf) ltac:(lia) ltac:(lia))
        as (s' & Hrun & Hc & Ht & _).
      exists s'. cbn [bind orb]. split; [exact Hrun |]. split; [congruence |].
      split; [lia |]. intros _ Hlt. lia.
    + destruct (UartInt_no_rx TI SBUF s) as (s1 & Hu & _ & Hcnt & Hto).
      pose proof (UartInt_wf _ _ _ _ _ Hwf Hu) as Hwf1.
      destruct (IH s1 Hwf1 ltac:(lia) ltac:(lia)) as (s' & Hrun & Hc & Ht & Hp).
      exists s'. rewrite Hu. cbn [bind orb]. split; [exact Hrun |]. split; [congruence |].
      split; [lia |]. intros Hex Hlt. specialize (Hp Hex ltac:(lia)). lia.
Qed.

(** A steady pass brings the busy-wait closer to its end. *)
Lemma run_irqs_steady batch s :
  wf s -> receCount s <= 7 -> receTimeOut s < 10 -> steady batch = true ->
  exists s', run_irqs batch s = Ok s' /\ wf s' /\ wait_budget s' < wait_budget s.
Proof.
  intros Hwf Hc Ht Hs. unfold steady in Hs.
  apply andb_true_iff in Hs as [Hp Hrx]. apply Z.leb_le in Hrx.
  pose proof (wf_count s Hwf) as Hc0. pose proof (wf_timeout s Hwf) as Ht0.
  unfold is_u8 in Hc0, Ht0. pose proof (rx_count_nonneg batch) as Hn.
  destruct (run_irqs_in_bounds batch s Hwf ltac:(lia)) as (s' & Hrun & Hwf' & Hcnt).
  exists s'. split; [exact Hrun |]. split; [exact Hwf' |].
  pose proof (wf_timeout s' Hwf') as Ht1. unfold is_u8 in Ht1.
  assert (Hstep : 1 <= rx_count batch \/
                  (receCount s' = receCount s /\ receTimeOut s + 1 <= receTimeOut s')).
  { destruct (Z.eq_dec (rx_count batch) 0) as [H0 | Hne]; [right | left; lia].
    destruct (run_irqs_no_rx batch s Hwf H0 ltac:(lia)) as (s2 & Hrun2 & Hc2 & _ & Hgrow).
    rewrite Hrun in Hrun2. injection Hrun2 as <-.
    split; [exact Hc2 | apply Hgrow; [exact Hp | lia]]. }
  unfold wait_budget.
  destruct (Z.leb_spec (receCount s) 7); [| lia].
  destruct (Z.geb_spec (receTimeOut s) 10); [lia |].
  destruct (Z.leb_spec (receCount s') 7); [| lia].
  destruct (Z.geb_spec (receTimeOut s') 10); lia.
Qed.

(** The busy-wait ends after enough steady passes. *)
Lemma main_wait_total evs : forall s,
  wf s -> forallb steady evs = true ->
  wait_budget s <= Z.of_nat (length evs) ->
  exists s1 evs1, main_wait evs s = Ok (s1, evs1).
Proof.
  induction evs as [| batch evs IH]; intros s Hwf Hp Hb; rewrite main_wait_eq;
    destruct (Z.leb_spec (receCount s) 7) as [Hc | Hc]; [| eauto | | eauto];
    destruct (Z.geb_spec (receTimeOut s) 10) as [Ht | Ht]; [eauto | | eauto |].
  - pose proof (wf_count s Hwf) as Hc0. unfold is_u8 in Hc0.
    unfold wait_budget in Hb.
    destruct (Z.leb_spec (receCount s) 7); [| lia].
    destruct (Z.geb_spec (receTimeOut s) 10); [lia |]. simpl in Hb. lia.
  - cbn [forallb] in Hp. apply andb_true_iff in Hp as [Hs Hp].
    rewrite length_cons, Nat2Z.inj_succ in Hb.
    destruct (run_irqs_steady batch s Hwf Hc Ht Hs) as (s' & Hrun & Hwf' & Hlt).
    rewrite Hrun. cbn [bind]. apply IH; [exact Hwf' | exact Hp | lia].
Qed.

Lemma main_rx_reset_fields s :
  UART1_ucRec_Flag (main_rx_reset s) = FALSE /\ receCount (main_rx_reset s) = 0 /\
  hw (main_rx_reset s) = hw s /\ Rressure (main_rx_reset s) = Rressure s /\
  crcData (main_rx_reset s) = crcData s /\ receBuf (main_rx_reset s) = receBuf s.
Proof. destruct s; simpl. repeat split; reflexivity. Qed.

Lemma main_validate_total s : wf s -> exists s', main_validate s = Ok s'.
Proof.
  intros Hwf. destruct (main_validate_cases s Hwf) as (c & _ & _ & Hv). eauto.
Qed.

(** C8.  Whatever the validation attempt does (frame accepted, header or
    CRC check failed, busy-wait left on the timeout with a short frame),
    the receive block is left with the data-available flag cleared and the
    byte count at zero.  And the block is left: its busy-wait ends within
    eighty passes, provided each pass sees at least one timer tick or
    received byte go by and at most two bytes. *)
Theorem receive_state_always_reset (evs : list (list irq)) (s : state) :
  wf s -> UART1_ucRec_Flag s = TRUE ->
  (forall s' evs', main_receive evs s = Ok (s', evs') ->
     UART1_ucRec_Flag s' = FALSE /\ receCount s' = 0) /\
  (forallb steady evs = true -> (80 <= length evs)%nat ->
     exists s' evs', main_receive evs s = Ok (s', evs') /\
       UART1_ucRec_Flag s' = FALSE /\ receCount s' = 0).
Proof.
  intros Hwf Hflag.
  assert (Hall : forall s' evs', main_receive evs s = Ok (s', evs') ->
            UART1_ucRec_Flag s' = FALSE /\ receCount s' = 0).
  { intros s' evs'. unfold main_receive. rewrite Hflag. cbn [Z.eqb TRUE Pos.eqb].
    destruct (main_wait evs s) as [[s1 evs1] |]; cbn [bind fst snd]; [| discriminate].
    destruct (main_validate s1) as [s2 |]; cbn [bind]; [| discriminate].
    intros [= <- <-]. pose proof (main_rx_reset_fields s2). tauto. }
  split; [exact Hall |].
  intros Hp Hlen.
  destruct (main_wait_total evs s Hwf Hp) as (s1 & evs1 & Hw).
  { pose proof (wait_budget_bound s Hwf). lia. }
  destruct (main_wait_exit _ _ _ _ Hw) as (Hwf1 & _).
  destruct (main_validate_total s1 (Hwf1 Hwf)) as (s2 & Hv).
  assert (Hr : main_receive evs s = Ok (main_rx_reset s2, evs1)).
  { unfold main_receive. rewrite Hflag, Hw. cbn [Z.eqb TRUE Pos.eqb bind fst snd].
    rewrite Hv. reflexivity. }
  exists (main_rx_reset s2), evs1. split; [exact Hr |]. apply (Hall _ _ Hr).
Qed.

Lemma receive_state_always_reset_witness :
  exists s' evs',
    main_receive (replicate 80 [IrqTimer0]) (set_UART1_ucRec_Flag TRUE reset_state)
      = Ok (s', evs') /\
    UART1_ucRec_Flag s' = FALSE /\ receCount s' = 0.
Proof.
  refine (proj2 (receive_state_always_reset (replicate 80 [IrqTimer0])
                   (set_UART1_ucRec_Flag TRUE reset_state) _ _) _ _).
  - constructor; simpl; unfold is_u8; try lia. apply forallb_u8. reflexivity.
  - reflexivity.
  - reflexivity.
  - rewrite length_replicate. lia.
Defined.

(** ** The poll trigger *)

Lemma ticks_S n s : ticks (S n) s = Timer0 (ticks n s).
Proof. reflexivity. Qed.

Lemma Timer0_below s :
  0 <= gCount s < 100 ->
  gCount (Timer0 s) = gCount s + 1 /\ fasongbiaozhi (Timer0 s) = fasongbiaozhi s.
Proof.
  intros H. unfold Timer0. destruct s as [fl buf to cnt fs pr gc cd t]; simpl in *.
  rewrite (u16_id (gc + 1)) by lia.
  assert (E : (gc + 1 >? 100) = false) by (rewrite Z.gtb_ltb; apply Z.ltb_ge; lia).
  destruct (u8 (to + 1) >? 100); simpl; rewrite E; simpl; split; reflexivity.
Qed.

Lemma Timer0_fires s :
  gCount s = 100 -> gCount (Timer0 s) = 0 /\ fasongbiaozhi (Timer0 s) = 1.
Proof.
  intros H. unfold Timer0. destruct s as [fl buf to cnt fs pr gc cd t]; simpl in *.
  subst gc. destruct (u8 (to + 1) >? 100); simpl; split; reflexivity.
Qed.

Lemma ticks_below k : forall s,
  gCount s = 0 -> (k <= 100)%nat ->
  gCount (ticks k s) = Z.of_nat k /\ fasongbiaozhi (ticks k s) = fasongbiaozhi s.
Proof.
  induction k as [| k IH]; intros s H0 Hk.
  - simpl. split; [exact H0 | reflexivity].
  - destruct (IH s H0 ltac:(lia)) as [Hg Hf]. rewrite ticks_S.
    destruct (Timer0_below (ticks k s) ltac:(lia)) as [Hg' Hf'].
    split; [lia | congruence].
Qed.

(** C4.  From a tick counter of zero, none of the timer ticks 1 to 100
    touches the "ready to send" flag (the counter just counts them), and
    tick 101 raises the flag and puts the counter back to zero. *)
Theorem poll_trigger_fires_on_tick_101 (s : state) :
  gCount s = 0 ->
  (forall k, (1 <= k <= 100)%nat ->
     fasongbiaozhi (ticks k s) = fasongbiaozhi s /\ gCount (ticks k s) = Z.of_nat k) /\
  fasongbiaozhi (ticks 101 s) = 1 /\ gCount (ticks 101 s) = 0.
Proof.
  intros H0. split.
  - intros k Hk. destruct (ticks_below k s H0 ltac:(lia)) as [Hg Hf]. auto.
  - destruct (ticks_below 100 s H0 ltac:(lia)) as [Hg _].
    rewrite !(ticks_S 100 s).
    generalize dependent (ticks 100 s). intros s100 Hg.
    destruct (Timer0_fires s100 Hg) as [Hg' Hf']. auto.
Qed.

Lemma poll_trigger_fires_on_tick_101_witness :
  fasongbiaozhi (ticks 100 reset_state) = 0 /\
  fasongbiaozhi (ticks 101 reset_state) = 1 /\ gCount (ticks 101 reset_state) = 0.
Proof.
  destruct (poll_trigger_fires_on_tick_101 reset_state eq_refl) as (Hk & Hf & Hg).
  split; [| split; assumption].
  exact (proj1 (Hk 100%nat ltac:(lia))).
Defined.

(** ** The poll request *)

Lemma tx_bytes_app (t u : list effect) : tx_bytes (t ++ u) = tx_bytes t ++ tx_bytes u.
Proof. unfold tx_bytes. apply omap_app. Qed.

(** C7.  Whenever the main loop finds the "ready to send" flag set it puts
    the RS485 driver in transmit mode, sends the eight bytes
    01 03 00 00 00 01 84 0A in this order and nothing else, returns to
    receive mode, clears the flag and zeroes the poll tick counter.  The last
    two bytes are the CRC16 of the first six: the Modbus CRC low byte first,
    which is the high byte of what [crc16] returns. *)
Theorem poll_request_is_constant (s : state) :
  fasongbiaozhi s = 1 ->
  hw (main_send s) = hw s ++ Dir485 1 :: map UartTx request_frame ++ [Dir485 0] /\
  tx_bytes (hw (main_send s)) = tx_bytes (hw s) ++ request_frame /\
  fasongbiaozhi (main_send s) = 0 /\ gCount (main_send s) = 0 /\
  crc16 (take 6 request_frame) 6
    = Ok (byte_at request_frame 6 * 256 + byte_at request_frame 7) /\
  crc16_modbus (take 6 request_frame)
    = byte_at request_frame 6 + byte_at request_frame 7 * 256.
Proof.
  intros Hf.
  assert (Hhw : hw (main_send s)
                = hw s ++ Dir485 1 :: map UartTx request_frame ++ [Dir485 0]).
  { unfold main_send. rewrite Hf. cbn [Z.eqb Pos.eqb].
    destruct s as [fl buf to cnt fs pr gc cd t]. run_updates.
    rewrite <- !app_assoc. reflexivity. }
  split; [exact Hhw |]. split; [| split; [| split; [| split]]].
  - rewrite Hhw, tx_bytes_app. reflexivity.
  - unfold main_send. rewrite Hf. reflexivity.
  - unfold main_send. rewrite Hf. reflexivity.
  - reflexivity.
  - vm_compute. reflexivity.
Qed.

Lemma poll_request_is_constant_witness :
  tx_bytes (hw (main_send (ticks 101 reset_state)))
    = [0x01; 0x03; 0x00; 0x00; 0x00; 0x01; 0x84; 0x0A].
Proof.
  exact (proj1 (proj2 (poll_request_is_constant (ticks 101 reset_state) eq_refl))).
Defined.

(** ** Accepting and rejecting frames *)

(** C2.  With [crcLo] and [crcHi] the low and the high byte of the Modbus
    CRC16 of 01 03 02 01 2C (0xB8 and 0x09; [crc16] returns them as
    crcLo * 256 + crcHi), the buffer 01 03 02 01 2C crcLo crcHi passes the
    validation, the decoded pressure is 300, and the display receives the
    cursor command for row 1 column 5 followed by the five characters
    "00300". *)
Theorem valid_response_300_displayed (s : state) (crcLo crcHi b7 b8 : Z) :
  crcLo = Z.land (crc16_modbus [0x01; 0x03; 0x02; 0x01; 0x2C]) 0xFF ->
  crcHi = Z.shiftr (crc16_modbus [0x01; 0x03; 0x02; 0x01; 0x2C]) 8 ->
  receBuf s = [0x01; 0x03; 0x02; 0x01; 0x2C; crcLo; crcHi; b7; b8] ->
  crc16 (receBuf s) 5 = Ok (crcLo * 256 + crcHi) /\
  exists s', main_validate s = Ok s' /\
    Rressure s' = 300 /\
    hw s' = hw s ++ LcdCmd 0xC5 :: lcd_text "00300".
Proof.
  intros -> -> Hbuf.
  destruct s as [fl buf to cnt fs pr gc cd t]; simpl in Hbuf; subst buf.
  split; [reflexivity |].
  eexists. split; [cbv -[app]; reflexivity |].
  split; [reflexivity |].
  simpl. rewrite <- !app_assoc. reflexivity.
Qed.

Lemma valid_response_300_displayed_witness :
  exists s',
    main_validate (with_buffer [0x01; 0x03; 0x02; 0x01; 0x2C; 0xB8; 0x09; 0; 0]) = Ok s' /\
    Rressure s' = 300 /\
    hw s' = LcdCmd 0xC5 :: lcd_text "00300".
Proof.
  exact (proj2 (valid_response_300_displayed
                  (with_buffer [0x01; 0x03; 0x02; 0x01; 0x2C; 0xB8; 0x09; 0; 0])
                  0xB8 0x09 0 0 eq_refl eq_refl eq_refl)).
Defined.

(** C1 as stated does not hold.  In the first buffer the recomputed
    checksum 0xB809 equals receBuf[5] + receBuf[6]*256 = 0x09 + 0xB8*256,
    yet the frame is dropped: only [crcData] changes.  In the second the
    checksum differs from receBuf[5] + receBuf[6]*256 = 0xB8 + 0x09*256,
    yet the frame is decoded and displayed. *)
Lemma crc_low_byte_first_counterexample :
  (header_ok [0x01; 0x03; 0x02; 0x01; 0x2C; 0x09; 0xB8; 0; 0] = true /\
   crc16 [0x01; 0x03; 0x02; 0x01; 0x2C; 0x09; 0xB8; 0; 0] 5 = Ok (0x09 + 0xB8 * 256) /\
   main_validate (with_buffer [0x01; 0x03; 0x02; 0x01; 0x2C; 0x09; 0xB8; 0; 0])
     = Ok (set_crcData 0xB809 (with_buffer [0x01; 0x03; 0x02; 0x01; 0x2C; 0x09; 0xB8; 0; 0]))) /\
  (header_ok [0x01; 0x03; 0x02; 0x01; 0x2C; 0xB8; 0x09; 0; 0] = true /\
   crc16 [0x01; 0x03; 0x02; 0x01; 0x2C; 0xB8; 0x09; 0; 0] 5 <> Ok (0xB8 + 0x09 * 256) /\
   exists s',
     main_validate (with_buffer [0x01; 0x03; 0x02; 0x01; 0x2C; 0xB8; 0x09; 0; 0]) = Ok s' /\
     Rressure s' = 300 /\ hw s' = LcdCmd 0xC5 :: lcd_text "00300").
Proof.
  split.
  - split; [reflexivity |]. split; reflexivity.
  - split; [reflexivity |]. split; [vm_compute; discriminate |].
    eexists. split; [vm_compute; reflexivity |]. split; reflexivity.
Qed.

(** C1, amended.  Once the header bytes pass, [main_validate] recomputes
    [crc16] over the first 5 bytes and compares it with
    receBuf[5]*256 + receBuf[6]: the first trailing byte is the high byte of
    the value [crc16] returns.  On equality the pressure receBuf[3]*256 +
    receBuf[4] is stored and displayed; otherwise nothing is decoded and
    nothing is displayed.  The display trace changes if and only if the two
    values are equal.  (Since [crc16] returns the Modbus CRC with its bytes
    exchanged, this is the same as the Modbus CRC of the five bytes being
    receBuf[5] + receBuf[6]*256.) *)
Theorem crc_check_decides_acceptance (s : state) :
  wf s -> header_ok (receBuf s) = true ->
  exists c s',
    crc16 (receBuf s) 5 = Ok c /\ main_validate s = Ok s' /\
    (c = byte_at (receBuf s) 5 * 256 + byte_at (receBuf s) 6 ->
       s' = accepted c s /\
       Rressure s' = byte_at (receBuf s) 3 * 256 + byte_at (receBuf s) 4) /\
    (c <> byte_at (receBuf s) 5 * 256 + byte_at (receBuf s) 6 ->
       s' = rejected c s /\ Rressure s' = Rressure s /\ hw s' = hw s) /\
    (hw s' <> hw s <-> c = byte_at (receBuf s) 5 * 256 + byte_at (receBuf s) 6) /\
    (c = byte_at (receBuf s) 5 * 256 + byte_at (receBuf s) 6 <->
       crc16_modbus (take 5 (receBuf s))
         = byte_at (receBuf s) 5 + byte_at (receBuf s) 6 * 256).
Proof.
  intros Hwf Hh.
  destruct (main_validate_cases s Hwf) as (c & Hc & Hr & Hv). rewrite Hh in Hv.
  exists c. eexists. split; [exact Hc |]. split; [exact Hv |].
  assert (Hmod : c = byte_at (receBuf s) 5 * 256 + byte_at (receBuf s) 6 <->
                 crc16_modbus (take 5 (receBuf s))
                   = byte_at (receBuf s) 5 + byte_at (receBuf s) 6 * 256).
  { rewrite <- crc_ok_modbus; [| apply Hwf | rewrite (wf_len s Hwf); lia].
    rewrite (crc_ok_eq _ _ Hc). symmetry. apply Z.eqb_eq. }
  destruct (Z.eqb_spec c (byte_at (receBuf s) 5 * 256 + byte_at (receBuf s) 6)) as [E | E].
  - split; [| split; [| split]].
    + intros _. split; [reflexivity |].
      destruct s as [fl buf to cnt fs pr gc cd t]. reflexivity.
    + intros H. contradiction.
    + split; [intros _; exact E | intros _; apply hw_accepted_changed].
    + exact Hmod.
  - split; [| split; [| split]].
    + intros H. contradiction.
    + intros _. destruct s; simpl. auto.
    + split; [intros H; exfalso; apply H; destruct s; reflexivity | intros H; contradiction].
    + exact Hmod.
Qed.

Lemma crc_check_decides_acceptance_witness :
  exists c s',
    crc16 [0x01; 0x03; 0x02; 0x01; 0x2C; 0xB8; 0x09; 0; 0] 5 = Ok c /\
    main_validate (with_buffer [0x01; 0x03; 0x02; 0x01; 0x2C; 0xB8; 0x09; 0; 0]) = Ok s' /\
    (hw s' <> [] <-> c = 0xB8 * 256 + 0x09).
Proof.
  destruct (crc_check_decides_acceptance
              (with_buffer [0x01; 0x03; 0x02; 0x01; 0x2C; 0xB8; 0x09; 0; 0]))
    as (c & s' & Hc & Hv & _ & _ & Hiff & _).
  - apply wf_with_buffer; reflexivity.
  - reflexivity.
  - exists c, s'. split; [exact Hc |]. split; [exact Hv |]. exact Hiff.
Defined.

(** C3 as stated does not hold.  Seven bytes of a well-formed answer
    arrive (the first set the flag, six more come during the busy-wait),
    then ten timer ticks pass: the busy-wait ends on the timeout with the
    count at 7, and the buffer is validated all the same: the CRC is
    recomputed, the pressure 300 is decoded and "00300" is displayed. *)
Lemma timeout_skips_validation_counterexample :
  exists s0 s1 s',
    run_irqs [rx 0x01] reset_state = Ok s0 /\
    main_wait ([[rx 0x03]; [rx 0x02]; [rx 0x01]; [rx 0x2C]; [rx 0xB8]; [rx 0x09]]
                 ++ replicate 10 [IrqTimer0]) s0 = Ok (s1, []) /\
    receCount s1 = 7 /\ receTimeOut s1 = 10 /\
    main_receive ([[rx 0x03]; [rx 0x02]; [rx 0x01]; [rx 0x2C]; [rx 0xB8]; [rx 0x09]]
                    ++ replicate 10 [IrqTimer0]) s0 = Ok (s', []) /\
    crcData s' = 0xB809 /\ Rressure s' = 300 /\
    hw s' = LcdCmd 0xC5 :: lcd_text "00300" /\ receCount s' = 0.
Proof.
  do 3 eexists. split; [vm_compute; reflexivity |].
  split; [vm_compute; reflexivity |].
  split; [reflexivity |]. split; [reflexivity |].
  split; [vm_compute; reflexivity |].
  repeat split; reflexivity.
Qed.

(** C3, amended.  When the busy-wait ends with the byte count still at most
    7, the timeout counter has reached 10, and the block then resets the
    count to 0 and clears the flag.  Before that the partially filled buffer
    goes through the same header and CRC checks as a complete one: the
    pressure is decoded and displayed exactly when the buffer passes both,
    and nothing is decoded or displayed otherwise. *)
Theorem timeout_exit_validates_then_resets
  (evs : list (list irq)) (s s1 : state) (evs1 : list (list irq)) :
  wf s -> UART1_ucRec_Flag s = TRUE ->
  main_wait evs s = Ok (s1, evs1) -> receCount s1 <= 7 ->
  10 <= receTimeOut s1 /\
  exists c s2,
    crc16 (receBuf s1) 5 = Ok c /\
    main_validate s1 = Ok s2 /\
    s2 = (if header_ok (receBuf s1) then
            if crc_ok (receBuf s1) then accepted c s1 else rejected c s1
          else s1) /\
    (hw s2 <> hw s <-> header_ok (receBuf s1) && crc_ok (receBuf s1) = true) /\
    main_receive evs s = Ok (main_rx_reset s2, evs1) /\
    receCount (main_rx_reset s2) = 0 /\
    UART1_ucRec_Flag (main_rx_reset s2) = FALSE.
Proof.
  intros Hwf Hflag Hw Hshort.
  destruct (main_wait_exit _ _ _ _ Hw) as (Hwf1 & Hhw & _ & _ & Hex).
  split; [lia |].
  destruct (main_validate_cases s1 (Hwf1 Hwf)) as (c & Hc & _ & Hv).
  rewrite <- (crc_ok_eq _ _ Hc) in Hv.
  exists c. eexists. split; [exact Hc |]. split; [exact Hv |].
  split; [reflexivity |]. split; [| split; [| split]].
  - rewrite <- Hhw.
    destruct (header_ok (receBuf s1)); cbn [andb].
    + destruct (crc_ok (receBuf s1)).
      * split; [reflexivity | intros _; apply hw_accepted_changed].
      * split; [intros H; exfalso; apply H; destruct s1; reflexivity | discriminate].
    + split; [intros H; exfalso; apply H; reflexivity | discriminate].
  - unfold main_receive. rewrite Hflag, Hw. cbn [Z.eqb TRUE Pos.eqb bind fst snd].
    rewrite Hv. reflexivity.
  - apply main_rx_reset_fields.
  - apply main_rx_reset_fields.
Qed.

Lemma timeout_exit_validates_then_resets_witness :
  exists s2,
    main_receive [] (set_UART1_ucRec_Flag TRUE (set_receCount 3 (set_receTimeOut 10
                       (with_buffer [0x01; 0x03; 0x02; 0; 0; 0; 0; 0; 0]))))
      = Ok (main_rx_reset s2, []) /\
    receCount (main_rx_reset s2) = 0.
Proof.
  destruct (timeout_exit_validates_then_resets []
              (set_UART1_ucRec_Flag TRUE (set_receCount 3 (set_receTimeOut 10
                 (with_buffer [0x01; 0x03; 0x02; 0; 0; 0; 0; 0; 0]))))
              (set_UART1_ucRec_Flag TRUE (set_receCount 3 (set_receTimeOut 10
                 (with_buffer [0x01; 0x03; 0x02; 0; 0; 0; 0; 0; 0]))))
              [])
    as (_ & c & s2 & _ & _ & _ & _ & Hr & Hcount & _).
  - constructor; simpl; unfold is_u8; try lia. apply forallb_u8. reflexivity.
  - reflexivity.
  - reflexivity.
  - simpl. lia.
  - exists s2. split; [exact Hr | exact Hcount].
Defined.

(** C10 as stated does not hold for the short frame.  The busy-wait
    is left on the timeout with seven bytes in the buffer (count 7, timeout
    counter 10); the bytes are a well-formed answer carrying 0x1234, so the
    stored pressure changes from 0 to 4660 and "04660" is displayed. *)
Lemma short_frame_keeps_pressure_counterexample :
  exists s',
    main_receive [] (set_UART1_ucRec_Flag TRUE (set_receCount 7 (set_receTimeOut 10
                       (with_buffer [0x01; 0x03; 0x02; 0x12; 0x34; 0xB5; 0x33; 0; 0]))))
      = Ok (s', []) /\
    Rressure (with_buffer [0x01; 0x03; 0x02; 0x12; 0x34; 0xB5; 0x33; 0; 0]) = 0 /\
    Rressure s' = 4660 /\
    hw s' = LcdCmd 0xC5 :: lcd_text "04660".
Proof.
  eexists. split; [vm_compute; reflexivity |]. repeat split; reflexivity.
Qed.

(** C10, amended.  On every cycle in which the header check or the CRC
    check fails, the stored pressure keeps its value and nothing is written
    to the display; and whenever a cycle changes the stored pressure it also
    writes to the display.  A short frame is no failure of its own: it fails
    only through one of the two checks. *)
Theorem failed_checks_keep_pressure
  (evs : list (list irq)) (s s1 : state) (evs1 : list (list irq)) :
  wf s -> UART1_ucRec_Flag s = TRUE -> main_wait evs s = Ok (s1, evs1) ->
  exists s',
    main_receive evs s = Ok (s', evs1) /\
    (header_ok (receBuf s1) = false \/ crc_ok (receBuf s1) = false ->
       Rressure s' = Rressure s /\ hw s' = hw s) /\
    (Rressure s' <> Rressure s -> hw s' <> hw s).
Proof.
  intros Hwf Hflag Hw.
  destruct (main_wait_exit _ _ _ _ Hw) as (Hwf1 & Hhw & Hp & _ & _).
  destruct (main_validate_cases s1 (Hwf1 Hwf)) as (c & Hc & _ & Hv).
  rewrite <- (crc_ok_eq _ _ Hc) in Hv.
  eexists. split.
  { unfold main_receive. rewrite Hflag, Hw. cbn [Z.eqb TRUE Pos.eqb bind fst snd].
    rewrite Hv. reflexivity. }
  destruct (main_rx_reset_fields
              (if header_ok (receBuf s1) then
                 if crc_ok (receBuf s1) then accepted c s1 else rejected c s1
               else s1)) as (_ & _ & -> & -> & _).
  rewrite <- Hhw, <- Hp.
  destruct (header_ok (receBuf s1)).
  - destruct (crc_ok (receBuf s1)).
    + split; [intros [H | H]; discriminate | intros _; apply hw_accepted_changed].
    + split; [intros _; destruct s1; auto | intros H; exfalso; apply H; destruct s1; reflexivity].
  - split; [auto | intros H; exfalso; apply H; reflexivity].
Qed.

Lemma failed_checks_keep_pressure_witness :
  exists s',
    main_receive [] (set_UART1_ucRec_Flag TRUE (set_receCount 7 (set_receTimeOut 10
                       (with_buffer [0x01; 0x03; 0x02; 0x12; 0x34; 0x33; 0xB5; 0; 0]))))
      = Ok (s', []) /\
    Rressure s' = 0 /\ hw s' = [].
Proof.
  destruct (failed_checks_keep_pressure []
              (set_UART1_ucRec_Flag TRUE (set_receCount 7 (set_receTimeOut 10
                 (with_buffer [0x01; 0x03; 0x02; 0x12; 0x34; 0x33; 0xB5; 0; 0]))))
              (set_UART1_ucRec_Flag TRUE (set_receCount 7 (set_receTimeOut 10
                 (with_buffer [0x01; 0x03; 0x02; 0x12; 0x34; 0x33; 0xB5; 0; 0]))))
              [])
    as (s' & Hr & Hfail & _).
  - constructor; simpl; unfold is_u8; try lia. apply forallb_u8. reflexivity.
  - reflexivity.
  - reflexivity.
  - exists s'. split; [exact Hr |]. apply Hfail. right. reflexivity.
Defined.

(** * Further properties of the code *)

(** ** The checksum *)

(** X1.  On every byte buffer and every length inside it, [crc16] returns
    the bit-serial CRC-16 of the first [length] bytes (polynomial 0xA001
    shifted right, register preset to 0xFFFF) with the two bytes of the
    register exchanged: the 512 table entries are the right ones. *)
Theorem crc16_is_modbus_crc (puchMsg : list Z) (usDataLen : Z) :
  Forall is_u8 puchMsg ->
  0 <= usDataLen <= Z.of_nat (length puchMsg) ->
  usDataLen < 65536 ->
  crc16 puchMsg usDataLen
    = Ok (Z.land (crc16_modbus (take (Z.to_nat usDataLen) puchMsg)) 0xFF * 256
          + Z.shiftr (crc16_modbus (take (Z.to_nat usDataLen) puchMsg)) 8).
Proof.
  intros Hb Hlen Hu. rewrite crc16_eq_spec by assumption.
  rewrite crc16_is_swapped_modbus by (apply Forall_take, Hb). reflexivity.
Qed.

Lemma crc16_is_modbus_crc_witness :
  crc16 request_frame 6 = Ok (Z.land 0x0A84 0xFF * 256 + Z.shiftr 0x0A84 8).
Proof.
  refine (crc16_is_modbus_crc request_frame 6 _ _ _).
  - apply forallb_u8. reflexivity.
  - simpl. lia.
  - lia.
Defined.

Lemma crc16_modbus_residue (msg : list Z) :
  Forall is_u8 msg ->
  crc16_modbus (msg ++ [crc16_modbus msg mod 256; crc16_modbus msg / 256]) = 0.
Proof.
  intros Hb. pose proof (crc16_modbus_range msg Hb) as Hr.
  unfold crc16_modbus at 1. rewrite fold_left_app.
  fold (crc16_modbus msg). set (m := crc16_modbus msg) in *.
  cbn [fold_left].
  pose proof (Z.div_mod m 256 ltac:(lia)) as Hdm.
  pose proof (Z.mod_pos_bound m 256 ltac:(lia)) as Hlo.
  assert (Hhi : 0 <= m / 256 < 256).
  { split; [apply Z.div_pos; lia | apply Z.div_lt_upper_bound; lia]. }
  assert (E1 : crc_byte m (m mod 256) = m / 256).
  { unfold crc_byte.
    replace (Z.lxor m (m mod 256)) with (m / 256 * 256).
    - apply crc_shift_high_byte.
    - rewrite Hdm at 2. rewrite (Z.mul_comm 256).
      rewrite (split_bytes (m / 256) (m mod 256)) by (unfold is_u8; lia).
      rewrite Z.lxor_assoc, Z.lxor_nilpotent, Z.lxor_0_r. reflexivity. }
  rewrite E1. unfold crc_byte. rewrite Z.lxor_nilpotent. reflexivity.
Qed.

(** X2.  A message followed by its own checksum, high byte of the [crc16]
    result first, has checksum 0.  (So has the poll request: its eight
    bytes are a message and its checksum.) *)
Theorem crc16_of_message_with_crc_is_zero (msg : list Z) (c : Z) :
  Forall is_u8 msg ->
  Z.of_nat (length msg) + 2 < 65536 ->
  crc16 msg (Z.of_nat (length msg)) = Ok c ->
  crc16 (msg ++ [c / 256; c mod 256]) (Z.of_nat (length msg) + 2) = Ok 0.
Proof.
  intros Hb Hlen Hc.
  rewrite crc16_eq_spec in Hc by (assumption || lia).
  rewrite Nat2Z.id, firstn_all in Hc. injection Hc as <-.
  rewrite crc16_is_swapped_modbus by exact Hb.
  pose proof (crc16_modbus_range msg Hb) as Hr.
  pose proof (crc16_modbus_residue msg Hb) as Hres.
  set (m := crc16_modbus msg) in *.
  change 255 with (Z.ones 8). rewrite Z.land_ones by lia.
  rewrite Z.shiftr_div_pow2 by lia. change (2 ^ 8) with 256.
  pose proof (Z.mod_pos_bound m 256 ltac:(lia)) as Hlo.
  assert (Hhi : 0 <= m / 256 < 256).
  { split; [apply Z.div_pos; lia | apply Z.div_lt_upper_bound; lia]. }
  rewrite <- (Z.div_unique_pos (m mod 256 * 256 + m / 256) 256 (m mod 256) (m / 256)) by lia.
  rewrite <- (Z.mod_unique_pos (m mod 256 * 256 + m / 256) 256 (m mod 256) (m / 256)) by lia.
  assert (Hall : Forall is_u8 (msg ++ [m mod 256; m / 256])).
  { apply Forall_app. split; [exact Hb |]. repeat constructor; unfold is_u8; lia. }
  rewrite crc16_eq_spec; [| exact Hall | rewrite length_app; simpl; lia | lia].
  replace (Z.to_nat (Z.of_nat (length msg) + 2))
    with (length (msg ++ [m mod 256; m / 256])) by (rewrite length_app; simpl; lia).
  rewrite firstn_all, crc16_is_swapped_modbus by exact Hall.
  rewrite Hres. reflexivity.
Qed.

Lemma crc16_of_message_with_crc_is_zero_witness : crc16 request_frame 8 = Ok 0.
Proof.
  refine (crc16_of_message_with_crc_is_zero [0x01; 0x03; 0x00; 0x00; 0x00; 0x01] 0x840A _ _ _).
  - apply forallb_u8. reflexivity.
  - simpl. lia.
  - reflexivity.
Defined.

Lemma crc16_loop_overrun n : forall puchMsg hi lo,
  is_u8 hi -> is_u8 lo -> Forall is_u8 puchMsg -> (length puchMsg < n)%nat ->
  crc16_loop puchMsg n hi lo = Err MsgOverrun.
Proof.
  induction n as [| n IH]; intros puchMsg hi lo Hh Hl Hm Hn; [lia |].
  destruct puchMsg as [| b rest]; [reflexivity |].
  inversion Hm as [| ? ? Hb Hrest]; subst.
  pose proof (lxor_u8 hi b Hh Hb) as Hi.
  cbn [crc16_loop].
  rewrite (read_in_range auchCRCHi) by (rewrite auchCRCHi_length; unfold is_u8 in Hi; lia).
  rewrite (read_in_range auchCRCLo) by (rewrite auchCRCLo_length; unfold is_u8 in Hi; lia).
  cbn [bind]. apply IH; [apply u8_range | apply u8_range | exact Hrest | simpl in Hn; lia].
Qed.

(** X3.  The two ends of the length range.  With length 0 [crc16] reads
    nothing and returns the preset 0xFFFF, whatever the buffer, even an
    empty one.  With a length beyond the buffer the loop reads past its
    end. *)
Theorem crc16_length_edges (puchMsg : list Z) (usDataLen : Z) :
  Forall is_u8 puchMsg ->
  Z.of_nat (length puchMsg) < usDataLen < 65536 ->
  crc16 puchMsg 0 = Ok 0xFFFF /\
  crc16 puchMsg usDataLen = Err MsgOverrun.
Proof.
  intros Hb Hlen. split; [reflexivity |].
  unfold crc16. rewrite u16_id by lia.
  rewrite crc16_loop_overrun; [reflexivity | unfold is_u8; lia | unfold is_u8; lia | exact Hb | lia].
Qed.

Lemma crc16_length_edges_witness :
  crc16 [0x01; 0x03] 0 = Ok 0xFFFF /\ crc16 [0x01; 0x03] 5 = Err MsgOverrun.
Proof.
  apply (crc16_length_edges [0x01; 0x03] 5).
  - apply forallb_u8. reflexivity.
  - simpl. lia.
Defined.

Lemma auchCRCLo_NoDup : NoDup auchCRCLo.
Proof. apply (bool_decide_unpack _). vm_compute. reflexivity. Qed.

Lemma auchCRCLo_inj i j :
  is_u8 i -> is_u8 j ->
  byte_at auchCRCLo (Z.to_nat i) = byte_at auchCRCLo (Z.to_nat j) -> i = j.
Proof.
  intros Hi Hj. unfold byte_at, is_u8 in *.
  destruct (lookup_lt_is_Some_2 auchCRCLo (Z.to_nat i)) as [vi Ei];
    [rewrite auchCRCLo_length; lia |].
  destruct (lookup_lt_is_Some_2 auchCRCLo (Z.to_nat j)) as [vj Ej];
    [rewrite auchCRCLo_length; lia |].
  rewrite Ei, Ej. simpl. intros <-.
  pose proof (NoDup_lookup _ _ _ _ auchCRCLo_NoDup Ei Ej). lia.
Qed.

Lemma lxor_cancel_l a b c : Z.lxor a b = Z.lxor a c -> b = c.
Proof.
  intros H. apply (f_equal (Z.lxor a)) in H.
  rewrite <- !Z.lxor_assoc, Z.lxor_nilpotent, !Z.lxor_0_l in H. exact H.
Qed.

Lemma crc16_step_inj_byte st b b' :
  is_u8 (fst st) -> is_u8 b -> is_u8 b' ->
  crc16_step st b = crc16_step st b' -> b = b'.
Proof.
  intros Hh Hb Hb'. unfold crc16_step. intros [= _ Hlo].
  apply auchCRCLo_inj in Hlo; [| apply lxor_u8; assumption ..].
  eapply lxor_cancel_l; eassumption.
Qed.

Lemma crc16_step_inj_state st st' b :
  is_u8 (fst st) -> is_u8 (fst st') -> is_u8 b ->
  crc16_step st b = crc16_step st' b -> st = st'.
Proof.
  destruct st as [hi lo], st' as [hi' lo']; cbn [fst]. intros Hh Hh' Hb.
  unfold crc16_step; cbn [fst snd]. intros [= Hhi Hlo].
  apply auchCRCLo_inj in Hlo; [| apply lxor_u8; assumption ..].
  rewrite (Z.lxor_comm hi), (Z.lxor_comm hi') in Hlo. apply lxor_cancel_l in Hlo. subst hi'.
  rewrite (Z.lxor_comm lo), (Z.lxor_comm lo') in Hhi. apply lxor_cancel_l in Hhi. subst lo'.
  reflexivity.
Qed.

Lemma crc16_fold_inj bytes : forall st st',
  is_u8 (fst st) -> is_u8 (snd st) -> is_u8 (fst st') -> is_u8 (snd st') ->
  Forall is_u8 bytes ->
  fold_left crc16_step bytes st = fold_left crc16_step bytes st' -> st = st'.
Proof.
  induction bytes as [| b bytes IH]; intros st st' H1 H2 H3 H4 Hb; [auto |].
  inversion Hb as [| ? ? Hb0 Hbs]; subst. cbn [fold_left]. intros H.
  destruct (crc16_step_u8 st b H2) as [Ha Hb1].
  destruct (crc16_step_u8 st' b H4) as [Hc Hd].
  apply (IH _ _ Ha Hb1 Hc Hd Hbs) in H.
  exact (crc16_step_inj_state st st' b H1 H3 Hb0 H).
Qed.

Lemma crc16_spec_single_byte (pre post : list Z) (x x' : Z) :
  Forall is_u8 pre -> Forall is_u8 post -> is_u8 x -> is_u8 x' -> x <> x' ->
  crc16_spec (pre ++ x :: post) <> crc16_spec (pre ++ x' :: post).
Proof.
  intros Hpre Hpost Hx Hx' Hne. unfold crc16_spec.
  rewrite !fold_left_app. cbn [fold_left].
  destruct (crc16_fold_u8 pre (0xFF, 0xFF)) as [Hh Hl]; [unfold is_u8; simpl; lia .. |].
  set (st := fold_left crc16_step pre (255, 255)) in *.
  destruct (crc16_step_u8 st x Hl) as [Ha Hb].
  destruct (crc16_step_u8 st x' Hl) as [Hc Hd].
  destruct (crc16_fold_u8 post (crc16_step st x) Ha Hb) as [He Hf].
  destruct (crc16_fold_u8 post (crc16_step st x') Hc Hd) as [Hg Hi].
  rewrite !pack_bytes by assumption. intros Heq.
  assert (Hst : fold_left crc16_step post (crc16_step st x)
                = fold_left crc16_step post (crc16_step st x')).
  { destruct (fold_left crc16_step post (crc16_step st x)) as [h1 l1].
    destruct (fold_left crc16_step post (crc16_step st x')) as [h2 l2].
    cbn [fst snd] in *. unfold is_u8 in *. f_equal; lia. }
  apply (crc16_fold_inj post _ _ Ha Hb Hc Hd Hpost) in Hst.
  apply (crc16_step_inj_byte st x x' Hh Hx Hx') in Hst. contradiction.
Qed.

(** X4.  [crc16] tells apart any two messages of the same length that
    differ in exactly one byte. *)
Theorem crc16_detects_single_byte_error (pre post : list Z) (x x' : Z) :
  Forall is_u8 pre -> Forall is_u8 post -> is_u8 x -> is_u8 x' -> x <> x' ->
  Z.of_nat (length (pre ++ x :: post)) < 65536 ->
  crc16 (pre ++ x :: post) (Z.of_nat (length (pre ++ x :: post)))
    <> crc16 (pre ++ x' :: post) (Z.of_nat (length (pre ++ x :: post))).
Proof.
  intros Hpre Hpost Hx Hx' Hne Hlen.
  assert (Hl : length (pre ++ x' :: post) = length (pre ++ x :: post))
    by (rewrite !length_app; reflexivity).
  rewrite (crc16_eq_spec (pre ++ x :: post));
    [| apply Forall_app; split; [| constructor]; assumption | lia | lia].
  rewrite (crc16_eq_spec (pre ++ x' :: post));
    [| apply Forall_app; split; [| constructor]; assumption | lia | lia].
  rewrite Nat2Z.id, firstn_all. rewrite <- Hl, firstn_all.
  intros [= H]. revert H. apply crc16_spec_single_byte; assumption.
Qed.

Lemma crc16_detects_single_byte_error_witness :
  crc16 [0x01; 0x03; 0x02; 0x01; 0x2C] 5 <> crc16 [0x01; 0x03; 0x02; 0x01; 0x2D] 5.
Proof.
  apply (crc16_detects_single_byte_error [0x01; 0x03; 0x02; 0x01] [] 0x2C 0x2D).
  - apply forallb_u8. reflexivity.
  - constructor.
  - unfold is_u8. lia.
  - unfold is_u8. lia.
  - lia.
  - simpl. lia.
Defined.

(** ** The LCD routines *)

Lemma u16_range z : 0 <= u16 z < 65536.
Proof. unfold u16. apply Z.mod_pos_bound. lia. Qed.

Lemma digits5_codes p :
  0 <= p < 65536 ->
  [u8 (p / 10000 + 48); u8 (p mod 10000 / 1000 + 48); u8 (p mod 1000 / 100 + 48);
   u8 (p mod 100 / 10 + 48); u8 (p mod 10 + 48)] = digits5 p.
Proof.
  intros Hp. unfold digits5, u8. cbn [map].
  change (10 ^ 4) with 10000. change (10 ^ 3) with 1000. change (10 ^ 2) with 100.
  change (10 ^ 1) with 10. change (10 ^ 0) with 1.
  repeat f_equal; Z.div_mod_to_equations; lia.
Qed.

Lemma digits5_decimal p : 0 <= p < 65536 -> decimal (digits5 p) = p.
Proof.
  intros Hp. unfold decimal, digits5. cbn [map fold_left].
  change (10 ^ 4) with 10000. change (10 ^ 3) with 1000. change (10 ^ 2) with 100.
  change (10 ^ 1) with 10. change (10 ^ 0) with 1.
  Z.div_mod_to_equations. lia.
Qed.

Lemma digits5_ascii p : Forall (fun d => 48 <= d <= 57) (digits5 p).
Proof.
  unfold digits5. cbn [map].
  repeat constructor; Z.div_mod_to_equations; lia.
Qed.

Lemma hw_LcdPrintNum num s :
  hw (LcdPrintNum num s) = hw s ++ map LcdData (digits5 (u16 num)).
Proof.
  rewrite <- (digits5_codes (u16 num)) by apply u16_range.
  destruct s as [fl buf to cnt fs pr gc cd t]. run_updates. cbn [map].
  rewrite <- !app_assoc. reflexivity.
Qed.

(** X5.  [LcdPrintNum] writes exactly five characters, each an ASCII digit,
    and read as a decimal number they are the argument (taken as a 16-bit
    value): leading zeros are written, nothing is dropped.  Only the
    display is touched. *)
Theorem LcdPrintNum_writes_the_number (num : Z) (s : state) :
  exists codes,
    hw (LcdPrintNum num s) = hw s ++ map LcdData codes /\
    length codes = 5%nat /\
    Forall (fun d => 48 <= d <= 57) codes /\
    decimal codes = u16 num /\
    LcdPrintNum num s = fold_left (fun st d => emit (LcdData d) st) codes s.
Proof.
  exists (digits5 (u16 num)). split; [apply hw_LcdPrintNum |].
  split; [reflexivity |]. split; [apply digits5_ascii |].
  split; [apply digits5_decimal, u16_range |].
  rewrite <- (digits5_codes (u16 num)) by apply u16_range. reflexivity.
Qed.

Lemma LcdPrintStr_spec (pre : list Z) : forall (rest : list Z) (s : state),
  Forall (fun c => c <> 0) pre ->
  LcdPrintStr (pre ++ 0 :: rest) s
    = Some (fold_left (fun st c => LcdWriteData c st) pre s) /\
  LcdPrintStr pre s = None.
Proof.
  induction pre as [| c pre IH]; intros rest s Hnz.
  - split; reflexivity.
  - inversion Hnz as [| ? ? Hc Hpre]; subst.
    cbn [LcdPrintStr app fold_left].
    destruct (Z.eqb_spec c 0) as [-> | _]; [contradiction |].
    apply IH, Hpre.
Qed.

Lemma hw_fold_LcdWriteData (str : list Z) : forall s,
  hw (fold_left (fun st c => LcdWriteData c st) str s)
    = hw s ++ map (fun c => LcdData (u8 c)) str.
Proof.
  induction str as [| c str IH]; intros s; cbn [fold_left map].
  - rewrite app_nil_r. reflexivity.
  - rewrite IH. destruct s; simpl. rewrite <- app_assoc. reflexivity.
Qed.

(** X6.  [LcdPrintStr] writes the characters in front of the first NUL, in
    order, and stops there: what lies behind the NUL is neither read nor
    written.  Given memory without a NUL, the loop runs off its end. *)
Theorem LcdPrintStr_stops_at_first_NUL (pre rest : list Z) (s : state) :
  Forall (fun c => c <> 0) pre ->
  (exists s', LcdPrintStr (pre ++ 0 :: rest) s = Some s' /\
     hw s' = hw s ++ map (fun c => LcdData (u8 c)) pre) /\
  LcdPrintStr pre s = None.
Proof.
  intros Hnz. destruct (LcdPrintStr_spec pre rest s Hnz) as [Hok Hoff].
  split; [| exact Hoff].
  eexists. split; [exact Hok |]. apply hw_fold_LcdWriteData.
Qed.

Lemma LcdPrintStr_stops_at_first_NUL_witness :
  exists s', LcdPrintStr [0x67; 0x20; 0; 0x41] reset_state = Some s' /\
    hw s' = [LcdData 0x67; LcdData 0x20].
Proof.
  refine (proj1 (LcdPrintStr_stops_at_first_NUL [0x67; 0x20] [0x41] reset_state _)).
  repeat constructor; discriminate.
Defined.

(** Start-up succeeds: both strings of [LcdShowInit] are NUL-terminated. *)
Lemma main_init_boots :
  exists s0, main_init reset_state = Some s0 /\ wf s0 /\
    receTimeOut s0 = 0 /\ gCount s0 = 0 /\ fasongbiaozhi s0 = 0 /\
    UART1_ucRec_Flag s0 = 0 /\ Rressure s0 = 0 /\ crcData s0 = 0 /\
    receCount s0 = 0.
Proof.
  eexists. split; [vm_compute; reflexivity |].
  split; [| repeat split; reflexivity].
  constructor; simpl; unfold is_u8; try lia. apply forallb_u8. reflexivity.
Qed.

(** ** The timer interrupt *)

Lemma ticks_wf n s : wf s -> wf (ticks n s).
Proof.
  intros Hwf. induction n as [| n IH]; [exact Hwf |].
  rewrite ticks_S. apply Timer0_wf, IH.
Qed.

(** X7.  The receive timeout counter saturates: after [n] timer ticks
    without a received byte it holds its old value plus [n], or 100 when
    that would be more.  It never wraps around. *)
Theorem Timer0_timeout_saturates (n : nat) (s : state) :
  wf s -> receTimeOut s <= 100 ->
  receTimeOut (ticks n s) = Z.min (receTimeOut s + Z.of_nat n) 100.
Proof.
  intros Hwf Hcap. pose proof (wf_timeout s Hwf) as H0. unfold is_u8 in H0.
  induction n as [| n IH].
  - simpl. lia.
  - rewrite ticks_S.
    destruct (Z_lt_le_dec (receTimeOut (ticks n s)) 100) as [Hlt | Hge].
    + rewrite (Timer0_timeout _ (ticks_wf n s Hwf) Hlt). lia.
    + rewrite (Timer0_timeout_cap _ (ticks_wf n s Hwf)) by lia. lia.
Qed.

Lemma Timer0_timeout_saturates_witness :
  receTimeOut (ticks 7 reset_state) = 7 /\ receTimeOut (ticks 150 reset_state) = 100.
Proof.
  split.
  - exact (Timer0_timeout_saturates 7 reset_state wf_reset_state ltac:(simpl; lia)).
  - exact (Timer0_timeout_saturates 150 reset_state wf_reset_state ltac:(simpl; lia)).
Defined.

Lemma Timer0_flag_sticky s : fasongbiaozhi s = 1 -> fasongbiaozhi (Timer0 s) = 1.
Proof.
  intros H. unfold Timer0. destruct s as [fl buf to cnt fs pr gc cd t]; simpl in *.
  destruct (u8 (to + 1) >? 100); simpl;
    destruct (u16 (gc + 1) >? 100); simpl; auto.
Qed.

Lemma ticks_gCount n : forall s,
  gCount s = 0 -> gCount (ticks n s) = Z.of_nat n mod 101.
Proof.
  intros s H0. induction n as [| n IH]; [simpl; exact H0 |].
  rewrite ticks_S, Nat2Z.inj_succ.
  pose proof (Z.mod_pos_bound (Z.of_nat n) 101 ltac:(lia)) as Hr.
  destruct (Z.eq_dec (Z.of_nat n mod 101) 100) as [E | E].
  - destruct (Timer0_fires (ticks n s) ltac:(lia)) as [Hg _]. rewrite Hg.
    Z.div_mod_to_equations. lia.
  - destruct (Timer0_below (ticks n s) ltac:(lia)) as [Hg _]. rewrite Hg, IH.
    Z.div_mod_to_equations. lia.
Qed.

(** X8.  Left alone by the main loop, the poll tick counter runs through
    0, 1, ..., 100 and starts again: after [n] ticks from zero it holds
    [n mod 101].  The "ready to send" flag is untouched by the first 100
    ticks and stays set from tick 101 on, until the main loop clears it: the
    poll period is 101 ticks. *)
Theorem poll_period_is_101_ticks (n : nat) (s : state) :
  gCount s = 0 ->
  gCount (ticks n s) = Z.of_nat n mod 101 /\
  ((n <= 100)%nat -> fasongbiaozhi (ticks n s) = fasongbiaozhi s) /\
  ((101 <= n)%nat -> fasongbiaozhi (ticks n s) = 1).
Proof.
  intros H0. split; [apply ticks_gCount, H0 |]. split.
  - intros Hn. apply (ticks_below n s H0 Hn).
  - intros Hn. induction n as [| n IH]; [lia |].
    rewrite ticks_S.
    destruct (Nat.eq_dec n 100%nat) as [-> | Hne].
    + destruct (ticks_below 100%nat s H0 ltac:(lia)) as [Hg _].
      generalize dependent (ticks 100 s). intros s100 _ Hg.
      exact (proj2 (Timer0_fires s100 Hg)).
    + apply Timer0_flag_sticky, IH. lia.
Qed.

Lemma poll_period_is_101_ticks_witness :
  gCount (ticks 202 reset_state) = 0 /\ gCount (ticks 200 reset_state) = 99.
Proof.
  split.
  - exact (proj1 (poll_period_is_101_ticks 202 reset_state eq_refl)).
  - exact (proj1 (poll_period_is_101_ticks 200 reset_state eq_refl)).
Defined.

(** ** The frame receiver *)

Lemma rx_bytes_length evs : Z.of_nat (length (rx_bytes evs)) = rx_count evs.
Proof.
  induction evs as [| e evs IH]; [reflexivity |].
  rewrite rx_count_cons. destruct e as [| TI [|] SBUF]; cbn [is_rx];
    unfold rx_bytes in *; cbn [omap list_omap]; cbn [length]; lia.
Qed.

Lemma run_irqs_accumulates evs : forall s,
  wf s -> receCount s + rx_count evs <= 9 ->
  exists s', run_irqs evs s = Ok s' /\ wf s' /\
    receCount s' = receCount s + rx_count evs /\
    receBuf s' = take (Z.to_nat (receCount s)) (receBuf s) ++ rx_bytes evs
                   ++ drop (Z.to_nat (receCount s + rx_count evs)) (receBuf s) /\
    hw s' = hw s /\ Rressure s' = Rressure s /\ crcData s' = crcData s.
Proof.
  induction evs as [| e evs IH]; intros s Hwf Hroom.
  - exists s. unfold rx_count, rx_bytes; cbn [List.filter length omap list_omap run_irqs].
    split; [reflexivity |]. split; [exact Hwf |]. split; [simpl; lia |].
    split; [| auto]. simpl. rewrite Z.add_0_r, take_drop. reflexivity.
  - rewrite rx_count_cons in Hroom |- *. pose proof (rx_count_nonneg evs) as Hn.
    pose proof (wf_count s Hwf) as Hc0. unfold is_u8 in Hc0.
    destruct e as [| TI [|] SBUF]; cbn [is_rx] in Hroom |- *; cbn [run_irqs handle].
    + pose proof (Timer0_frame s) as (Hhw & Hp & Hcd & Hbuf & Hcnt & _).
      destruct (IH (Timer0 s) (Timer0_wf s Hwf) ltac:(lia))
        as (s' & Hrun & Hwf' & Hc & Hb & Hhw' & Hp' & Hcd').
      exists s'. cbn [bind]. split; [exact Hrun |]. split; [exact Hwf' |].
      split; [lia |]. split; [| repeat split; congruence].
      rewrite Hb, Hbuf, Hcnt. reflexivity.
    + destruct (UartInt_rx_ok TI SBUF s Hwf ltac:(lia)) as (s1 & Hu & Hbuf & Hcnt & _).
      pose proof (UartInt_wf _ _ _ _ _ Hwf Hu) as Hwf1.
      destruct (UartInt_frame _ _ _ _ _ Hu) as (Hhw & Hp & Hcd).
      destruct (IH s1 Hwf1 ltac:(lia))
        as (s' & Hrun & Hwf' & Hc & Hb & Hhw' & Hp' & Hcd').
      exists s'. rewrite Hu. cbn [bind]. split; [exact Hrun |]. split; [exact Hwf' |].
      split; [lia |]. split; [| repeat split; congruence].
      rewrite Hb, Hbuf, Hcnt.
      assert (Hlt : (Z.to_nat (receCount s) < length (receBuf s))%nat)
        by (rewrite (wf_len s Hwf); lia).
      replace (Z.to_nat (receCount s + 1)) with (S (Z.to_nat (receCount s))) by lia.
      rewrite (take_S_r _ _ (u8 SBUF)) by (apply list_lookup_insert_eq, Hlt).
      rewrite take_insert_ge by lia.
      rewrite drop_insert_lt by lia.
      unfold rx_bytes; cbn [omap list_omap]. rewrite <- app_assoc.
      replace (receCount s + 1 + rx_count evs) with (receCount s + (1 + rx_count evs)) by lia.
      reflexivity.
    + destruct (UartInt_no_rx TI SBUF s) as (s1 & Hu & Hbuf & Hcnt & _).
      pose proof (UartInt_wf _ _ _ _ _ Hwf Hu) as Hwf1.
      destruct (UartInt_frame _ _ _ _ _ Hu) as (Hhw & Hp & Hcd).
      destruct (IH s1 Hwf1 ltac:(lia))
        as (s' & Hrun & Hwf' & Hc & Hb & Hhw' & Hp' & Hcd').
      exists s'. rewrite Hu. cbn [bind]. split; [exact Hrun |]. split; [exact Hwf' |].
      split; [lia |]. split; [| repeat split; congruence].
      rewrite Hb, Hbuf, Hcnt. reflexivity.
Qed.

(** X9.  Counting from a reset of the count, the bytes of up to 9
    received-byte interrupts end up in [receBuf] in the order of arrival,
    from cell 0 on, whatever timer ticks and transmit interrupts come in
    between; the cells behind them keep what they held, and the count is the
    number of bytes received. *)
Theorem received_bytes_fill_the_buffer (evs : list irq) (s : state) :
  wf s -> receCount s = 0 -> rx_count evs <= 9 ->
  exists s', run_irqs evs s = Ok s' /\
    receBuf s' = rx_bytes evs ++ drop (length (rx_bytes evs)) (receBuf s) /\
    receCount s' = Z.of_nat (length (rx_bytes evs)).
Proof.
  intros Hwf H0 Hn.
  destruct (run_irqs_accumulates evs s Hwf ltac:(lia)) as (s' & Hrun & _ & Hc & Hb & _).
  exists s'. split; [exact Hrun |]. rewrite rx_bytes_length. split; [| lia].
  rewrite Hb, H0, Z.add_0_l, <- rx_bytes_length, Nat2Z.id. reflexivity.
Qed.

Lemma received_bytes_fill_the_buffer_witness :
  exists s', run_irqs [rx 0x01; IrqTimer0; rx 0x03; IrqUart true false 0; rx 0x02] reset_state
               = Ok s' /\
    receBuf s' = [0x01; 0x03; 0x02; 0; 0; 0; 0; 0; 0] /\ receCount s' = 3.
Proof.
  refine (received_bytes_fill_the_buffer
            [rx 0x01; IrqTimer0; rx 0x03; IrqUart true false 0; rx 0x02] reset_state _ _ _).
  - exact wf_reset_state.
  - reflexivity.
  - vm_compute. discriminate.
Defined.

(** ** Whole receive cycles *)

Lemma rx_bytes_map_rx bs : rx_bytes (map rx bs) = map u8 bs.
Proof. induction bs as [| b bs IH]; [reflexivity |]. unfold rx_bytes in *. cbn. rewrite IH. reflexivity. Qed.

Lemma rx_count_map_rx bs : rx_count (map rx bs) = Z.of_nat (length bs).
Proof. rewrite <- rx_bytes_length, rx_bytes_map_rx, length_map. reflexivity. Qed.

(** Bytes arriving one per pass keep the busy-wait going as long as fewer
    than eight have come. *)
Lemma main_wait_bytes bs : forall s rest,
  wf s -> receTimeOut s < 10 -> receCount s + Z.of_nat (length bs) <= 8 ->
  exists s1, run_irqs (map rx bs) s = Ok s1 /\
    main_wait (map (fun b => [rx b]) bs ++ rest) s = main_wait rest s1 /\
    (bs <> [] -> receTimeOut s1 = 0).
Proof.
  induction bs as [| b bs IH]; intros s rest Hwf Ht Hc.
  - exists s. split; [reflexivity |]. split; [reflexivity | congruence].
  - cbn [length] in Hc. rewrite Nat2Z.inj_succ in Hc.
    pose proof (wf_count s Hwf) as Hc0. unfold is_u8 in Hc0.
    destruct (UartInt_rx_ok false b s Hwf ltac:(lia)) as (s' & Hu & _ & Hcnt & Hto & _).
    pose proof (UartInt_wf _ _ _ _ _ Hwf Hu) as Hwf'.
    destruct (IH s' rest Hwf' ltac:(lia) ltac:(lia)) as (s1 & Hrun & Hw & Hz).
    exists s1. cbn [map run_irqs app].
    change (handle (rx b) s) with (UartInt false true b s). rewrite Hu. cbn [bind].
    split; [exact Hrun |]. split.
    + rewrite main_wait_eq.
      destruct (Z.leb_spec (receCount s) 7); [| lia].
      destruct (Z.geb_spec (receTimeOut s) 10); [lia |].
      cbn [run_irqs].
      change (handle (rx b) s) with (UartInt false true b s). rewrite Hu.
      cbn [bind]. exact Hw.
    + intros _. destruct bs as [| b' bs']; [| apply Hz; discriminate].
      cbn [map run_irqs] in Hrun. injection Hrun as <-. exact Hto.
Qed.

(** Silence on the line: the busy-wait leaves on the timeout after the
    ticks that bring the counter to 10, with the receiver untouched. *)
Lemma main_wait_silence k : forall s,
  wf s -> receCount s <= 7 -> receTimeOut s + Z.of_nat k = 10 ->
  exists s1, main_wait (replicate k [IrqTimer0]) s = Ok (s1, []) /\ wf s1 /\
    receBuf s1 = receBuf s /\ hw s1 = hw s /\ Rressure s1 = Rressure s /\
    crcData s1 = crcData s /\ receCount s1 = receCount s.
Proof.
  induction k as [| k IH]; intros s Hwf Hc Ht; rewrite main_wait_eq;
    (destruct (Z.leb_spec (receCount s) 7); [| lia]).
  - destruct (Z.geb_spec (receTimeOut s) 10); [| simpl in Ht; lia].
    exists s. cbn [replicate]. auto 10.
  - rewrite Nat2Z.inj_succ in Ht.
    pose proof (wf_timeout s Hwf) as Ht0. unfold is_u8 in Ht0.
    destruct (Z.geb_spec (receTimeOut s) 10); [lia |].
    cbn [replicate run_irqs handle bind].
    pose proof (Timer0_frame s) as (Hhw & Hp & Hcd & Hbuf & Hcnt & _).
    pose proof (Timer0_timeout s Hwf ltac:(lia)) as Hto.
    destruct (IH (Timer0 s) (Timer0_wf s Hwf) ltac:(lia) ltac:(lia))
      as (s1 & Hw & Hwf1 & Hb1 & Hhw1 & Hp1 & Hcd1 & Hc1).
    exists s1. split; [exact Hw |]. split; [exact Hwf1 |].
    repeat split; congruence.
Qed.

(** A frame of at most seven bytes followed by silence: the first byte
    raises the flag, the others arrive during the busy-wait, ten ticks end
    it.  The buffer then holds the bytes in front of its old contents. *)
Lemma short_frame_cycle (b : Z) (bs : list Z) (s : state) :
  wf s -> receCount s = 0 -> (length (b :: bs) <= 7)%nat ->
  exists s0 s1,
    run_irqs [rx b] s = Ok s0 /\ UART1_ucRec_Flag s0 = TRUE /\
    main_wait (map (fun x => [rx x]) bs ++ replicate 10 [IrqTimer0]) s0 = Ok (s1, []) /\
    wf s1 /\
    receBuf s1 = map u8 (b :: bs) ++ drop (length (b :: bs)) (receBuf s) /\
    hw s1 = hw s /\ Rressure s1 = Rressure s.
Proof.
  intros Hwf H0 Hlen. cbn [length] in Hlen.
  destruct (UartInt_rx_ok false b s Hwf ltac:(lia)) as (s0 & Hu & _ & Hcnt & Hto & Hfl).
  pose proof (UartInt_wf _ _ _ _ _ Hwf Hu) as Hwf0.
  destruct (main_wait_bytes bs s0 (replicate 10 [IrqTimer0]) Hwf0 ltac:(lia) ltac:(lia))
    as (s1 & Hrun & Hw & Hz).
  assert (Hall : run_irqs (map rx (b :: bs)) s = Ok s1).
  { cbn [map run_irqs].
    change (handle (rx b) s) with (UartInt false true b s). rewrite Hu. exact Hrun. }
  destruct (run_irqs_accumulates (map rx (b :: bs)) s Hwf)
    as (s1' & Hrun' & Hwf1 & Hc1 & Hb1 & Hhw1 & Hp1 & _).
  { rewrite rx_count_map_rx. cbn [length]. lia. }
  rewrite Hall in Hrun'. injection Hrun' as <-.
  rewrite rx_count_map_rx, rx_bytes_map_rx, H0 in *.
  assert (Ht1 : receTimeOut s1 = 0).
  { destruct bs as [| b' bs']; [| apply Hz; discriminate].
    cbn [map run_irqs] in Hrun. injection Hrun as <-. exact Hto. }
  destruct (main_wait_silence 10 s1 Hwf1 ltac:(cbn [length] in Hc1; lia) ltac:(lia))
    as (s2 & Hw2 & Hwf2 & Hb2 & Hhw2 & Hp2 & _).
  exists s0, s2. cbn [run_irqs].
  change (handle (rx b) s) with (UartInt false true b s). rewrite Hu.
  split; [reflexivity |]. split; [exact Hfl |].
  split; [rewrite Hw; exact Hw2 |]. split; [exact Hwf2 |].
  split; [| split; congruence].
  rewrite Hb2, Hb1. simpl. rewrite Z.add_0_l, Nat2Z.id. reflexivity.
Qed.

Lemma hw_accepted_chunk c s :
  wf s ->
  hw (accepted c s)
    = hw s ++ display_chunk (byte_at (receBuf s) 3 * 256 + byte_at (receBuf s) 4) /\
  Rressure (accepted c s) = byte_at (receBuf s) 3 * 256 + byte_at (receBuf s) 4 /\
  0 <= byte_at (receBuf s) 3 * 256 + byte_at (receBuf s) 4 < 65536.
Proof.
  intros Hwf.
  pose proof (byte_at_u8 (receBuf s) 3 (wf_buf s Hwf)) as H3.
  pose proof (byte_at_u8 (receBuf s) 4 (wf_buf s Hwf)) as H4.
  unfold is_u8 in *.
  assert (Hr : 0 <= byte_at (receBuf s) 3 * 256 + byte_at (receBuf s) 4 < 65536) by lia.
  split; [| split; [destruct s; reflexivity | exact Hr]].
  rewrite hw_accepted. cbv zeta. rewrite (u16_id _ Hr).
  unfold display_chunk. rewrite <- digits5_codes by exact Hr. reflexivity.
Qed.

(** The answer frame for [p], byte by byte. *)
Lemma response_frame_bytes p :
  0 <= p < 65536 ->
  exists c, crc16 [0x01; 0x03; 0x02; p / 256; p mod 256] 5 = Ok c /\
    0 <= c < 65536 /\
    response_frame p = [0x01; 0x03; 0x02; p / 256; p mod 256; c / 256; c mod 256] /\
    Forall is_u8 (response_frame p).
Proof.
  intros Hp.
  assert (Hhi : 0 <= p / 256 < 256)
    by (split; [apply Z.div_pos; lia | apply Z.div_lt_upper_bound; lia]).
  pose proof (Z.mod_pos_bound p 256 ltac:(lia)) as Hlo.
  assert (Hb : Forall is_u8 [0x01; 0x03; 0x02; p / 256; p mod 256])
    by (repeat constructor; unfold is_u8; lia).
  pose proof (crc16_eq_spec _ 5 Hb ltac:(simpl; lia) ltac:(lia)) as Hc.
  pose proof (crc16_spec_range (take (Z.to_nat 5) [0x01; 0x03; 0x02; p / 256; p mod 256])) as Hr.
  set (c := crc16_spec _) in *.
  exists c. split; [exact Hc |]. split; [exact Hr |].
  unfold response_frame. cbv zeta. rewrite Hc. split; [reflexivity |].
  apply Forall_app. split; [exact Hb |].
  assert (0 <= c / 256 < 256)
    by (split; [apply Z.div_pos; lia | apply Z.div_lt_upper_bound; lia]).
  pose proof (Z.mod_pos_bound c 256 ltac:(lia)).
  repeat constructor; unfold is_u8; lia.
Qed.

(** The validator on a buffer that starts with the answer frame for [p]. *)
Lemma main_validate_response p s :
  0 <= p < 65536 -> wf s -> take 7 (receBuf s) = response_frame p ->
  exists s', main_validate s = Ok s' /\ Rressure s' = p /\
    hw s' = hw s ++ display_chunk p /\
    receCount s' = receCount s /\ UART1_ucRec_Flag s' = UART1_ucRec_Flag s.
Proof.
  intros Hp Hwf Hframe.
  destruct (response_frame_bytes p Hp) as (c & Hc & Hr & Hf & _).
  rewrite Hf in Hframe.
  destruct (wf_buf_cells s Hwf) as (b0 & b1 & b2 & b3 & b4 & b5 & b6 & b7 & b8 & Hb & Hu8).
  rewrite Hb in Hframe. cbn [take] in Hframe.
  injection Hframe as -> -> -> -> -> -> ->.
  destruct (main_validate_cases s Hwf) as (c' & Hc' & _ & Hv).
  assert (Ec : c' = c).
  { rewrite Hb in Hc'.
    pose proof (Forall_take _ 5 _ Hu8) as Hbody. cbn [take] in Hbody.
    rewrite (crc16_eq_spec _ 5) in Hc' by (assumption || simpl; lia).
    rewrite (crc16_eq_spec _ 5) in Hc by (assumption || simpl; lia).
    change (Z.to_nat 5) with 5%nat in Hc', Hc. cbn [take] in Hc', Hc. congruence. }
  subst c'.
  destruct (hw_accepted_chunk c s Hwf) as (Hhw & Hp' & _).
  assert (Eh : header_ok (receBuf s) = true) by (rewrite Hb; reflexivity).
  assert (E3 : byte_at (receBuf s) 3 = p / 256) by (rewrite Hb; reflexivity).
  assert (E4 : byte_at (receBuf s) 4 = p mod 256) by (rewrite Hb; reflexivity).
  assert (E5 : byte_at (receBuf s) 5 = c / 256) by (rewrite Hb; reflexivity).
  assert (E6 : byte_at (receBuf s) 6 = c mod 256) by (rewrite Hb; reflexivity).
  rewrite Eh, E5, E6 in Hv. rewrite E3, E4 in Hhw, Hp'.
  pose proof (Z.div_mod c 256 ltac:(lia)) as Hdc.
  pose proof (Z.div_mod p 256 ltac:(lia)) as Hdp.
  replace (c =? c / 256 * 256 + c mod 256) with true in Hv by (symmetry; apply Z.eqb_eq; lia).
  replace (p / 256 * 256 + p mod 256) with p in Hhw, Hp' by lia.
  eexists. split; [exact Hv |].
  split; [exact Hp' |]. split; [exact Hhw |]. destruct s; split; reflexivity.
Qed.

Lemma map_u8_id (l : list Z) : Forall is_u8 l -> map u8 l = l.
Proof.
  induction 1 as [| x l Hx Hl IH]; [reflexivity |].
  cbn [map]. rewrite IH, (u8_id x Hx). reflexivity.
Qed.

Lemma main_receive_after_wait evs s s1 evs1 s2 :
  UART1_ucRec_Flag s = TRUE -> main_wait evs s = Ok (s1, evs1) ->
  main_validate s1 = Ok s2 ->
  main_receive evs s = Ok (main_rx_reset s2, evs1).
Proof.
  intros Hflag Hw Hv. unfold main_receive.
  rewrite Hflag, Hw. cbn [Z.eqb TRUE Pos.eqb bind fst snd]. rewrite Hv. reflexivity.
Qed.

(** X10.  Decoding inverts the frame layout: for every 16-bit value [p], a
    buffer that starts with the answer frame for [p] (header 01 03 02, [p]
    high byte first, checksum) is accepted, the stored pressure becomes
    [p], and the display gets the cursor command and the five decimal
    digits of [p]. *)
Theorem validator_decodes_every_pressure (p : Z) (s : state) :
  0 <= p < 65536 -> wf s -> take 7 (receBuf s) = response_frame p ->
  exists s', main_validate s = Ok s' /\ Rressure s' = p /\
    hw s' = hw s ++ display_chunk p /\ decimal (digits5 p) = p.
Proof.
  intros Hp Hwf Hf.
  destruct (main_validate_response p s Hp Hwf Hf) as (s' & Hv & Hr & Hhw & _).
  exists s'. split; [exact Hv |]. split; [exact Hr |]. split; [exact Hhw |].
  apply digits5_decimal, Hp.
Qed.

Lemma validator_decodes_every_pressure_witness :
  exists s', main_validate (with_buffer [0x01; 0x03; 0x02; 0xFF; 0xFF; 0xB9; 0xF4; 0; 0]) = Ok s' /\
    Rressure s' = 65535 /\ hw s' = display_chunk 65535 /\ decimal (digits5 65535) = 65535.
Proof.
  refine (validator_decodes_every_pressure 65535
            (with_buffer [0x01; 0x03; 0x02; 0xFF; 0xFF; 0xB9; 0xF4; 0; 0]) _ _ _).
  - lia.
  - apply wf_with_buffer; reflexivity.
  - reflexivity.
Defined.

(** X11.  A whole cycle, from the line to the display.  Starting with the
    count at 0, let the seven bytes of the answer frame for [p] arrive one
    after the other (the first between two passes of the main loop, the
    others during the busy-wait) and let ten ticks of silence follow.  The
    receive block then ends with the pressure [p] stored and displayed, the
    count back at 0 and the flag cleared. *)
Theorem answer_frame_cycle_displays_pressure (p : Z) (s : state) :
  0 <= p < 65536 -> wf s -> receCount s = 0 ->
  exists s0 s',
    run_irqs [rx 0x01] s = Ok s0 /\
    main_receive (map (fun x => [rx x]) (drop 1 (response_frame p))
                    ++ replicate 10 [IrqTimer0]) s0 = Ok (s', []) /\
    Rressure s' = p /\ hw s' = hw s ++ display_chunk p /\
    receCount s' = 0 /\ UART1_ucRec_Flag s' = FALSE.
Proof.
  intros Hp Hwf H0.
  destruct (response_frame_bytes p Hp) as (c & _ & _ & Hf & Hbytes).
  destruct (short_frame_cycle 0x01 (drop 1 (response_frame p)) s Hwf H0)
    as (s0 & s1 & Hrun & Hfl & Hw & Hwf1 & Hb1 & Hhw1 & Hp1).
  { rewrite Hf. simpl. lia. }
  assert (Hframe : 0x01 :: drop 1 (response_frame p) = response_frame p)
    by (rewrite Hf; reflexivity).
  rewrite Hframe, (map_u8_id _ Hbytes) in Hb1.
  assert (Hlen : length (response_frame p) = 7%nat) by (rewrite Hf; reflexivity).
  destruct (main_validate_response p s1 Hp Hwf1) as (s2 & Hv & Hr & Hhw & _).
  { rewrite Hb1. apply take_app_length'. symmetry. exact Hlen. }
  exists s0, (main_rx_reset s2). split; [exact Hrun |].
  split; [apply (main_receive_after_wait _ _ s1); assumption |].
  destruct (main_rx_reset_fields s2) as (Hf2 & Hc2 & Hh2 & Hp2 & _).
  rewrite Hh2, Hp2. repeat split; congruence.
Qed.

Lemma answer_frame_cycle_displays_pressure_witness :
  exists s0 s',
    run_irqs [rx 0x01] reset_state = Ok s0 /\
    main_receive (map (fun x => [rx x]) (drop 1 (response_frame 300))
                    ++ replicate 10 [IrqTimer0]) s0 = Ok (s', []) /\
    Rressure s' = 300 /\ hw s' = display_chunk 300 /\
    receCount s' = 0 /\ UART1_ucRec_Flag s' = FALSE.
Proof.
  refine (answer_frame_cycle_displays_pressure 300 reset_state _ _ _).
  - lia.
  - exact wf_reset_state.
  - reflexivity.
Defined.

(** X12.  The reset at the end of a cycle zeroes the count but leaves the
    buffer as it is.  So if the buffer still holds an accepted frame and the
    next answer breaks off after [k] bytes (1 to 7) that repeat the first
    [k] bytes of that frame, for instance after the address byte alone,
    the old frame is accepted once more and its pressure displayed again. *)
Theorem truncated_answer_redisplays_old_frame
  (k : nat) (b : Z) (bs : list Z) (s : state) :
  wf s -> receCount s = 0 ->
  header_ok (receBuf s) && crc_ok (receBuf s) = true ->
  (k <= 7)%nat -> take k (receBuf s) = b :: bs ->
  exists s0 s',
    run_irqs [rx b] s = Ok s0 /\
    main_receive (map (fun x => [rx x]) bs ++ replicate 10 [IrqTimer0]) s0 = Ok (s', []) /\
    Rressure s' = byte_at (receBuf s) 3 * 256 + byte_at (receBuf s) 4 /\
    hw s' = hw s ++ display_chunk (byte_at (receBuf s) 3 * 256 + byte_at (receBuf s) 4).
Proof.
  intros Hwf H0 Hok Hk Htake.
  apply andb_true_iff in Hok as [Hh Hcrc].
  assert (Hlen : length (b :: bs) = k).
  { rewrite <- Htake, length_take, (wf_len s Hwf). lia. }
  destruct (short_frame_cycle b bs s Hwf H0 ltac:(lia))
    as (s0 & s1 & Hrun & Hfl & Hw & Hwf1 & Hb1 & Hhw1 & Hp1).
  assert (Hsame : receBuf s1 = receBuf s).
  { rewrite Hb1, Hlen, <- Htake, map_u8_id by (apply Forall_take, Hwf).
    apply take_drop. }
  destruct (main_validate_cases s1 Hwf1) as (c & Hc & _ & Hv).
  rewrite <- (crc_ok_eq _ _ Hc), Hsame, Hh, Hcrc in Hv.
  destruct (hw_accepted_chunk c s1 Hwf1) as (Hhw & Hp & _).
  rewrite Hsame in Hhw, Hp.
  exists s0, (main_rx_reset (accepted c s1)). split; [exact Hrun |].
  split; [apply (main_receive_after_wait _ _ s1); assumption |].
  destruct (main_rx_reset_fields (accepted c s1)) as (_ & _ & Hh2 & Hp2 & _).
  rewrite Hh2, Hp2. split; congruence.
Qed.

Lemma truncated_answer_redisplays_old_frame_witness :
  exists s0 s',
    run_irqs [rx 0x01] (with_buffer [0x01; 0x03; 0x02; 0x01; 0x2C; 0xB8; 0x09; 0; 0]) = Ok s0 /\
    main_receive (replicate 10 [IrqTimer0]) s0 = Ok (s', []) /\
    Rressure s' = 300 /\ hw s' = display_chunk 300.
Proof.
  refine (truncated_answer_redisplays_old_frame 1 0x01 []
            (with_buffer [0x01; 0x03; 0x02; 0x01; 0x2C; 0xB8; 0x09; 0; 0]) _ _ _ _ _).
  - apply wf_with_buffer; reflexivity.
  - reflexivity.
  - reflexivity.
  - lia.
  - reflexivity.
Defined.

(** ** What the validator rejects and what it does not look at *)

Lemma crc16_cells b0 b1 b2 b3 b4 rest :
  Forall is_u8 [b0; b1; b2; b3; b4] ->
  crc16 (b0 :: b1 :: b2 :: b3 :: b4 :: rest) 5 = Ok (crc16_spec [b0; b1; b2; b3; b4]).
Proof.
  intros Hb. unfold crc16. rewrite u16_id by lia. change (Z.to_nat 5) with 5%nat.
  pose proof (crc16_loop_spec 5 [b0; b1; b2; b3; b4] 0xFF 0xFF
                ltac:(unfold is_u8; lia) ltac:(unfold is_u8; lia) Hb ltac:(simpl; lia)) as Hl.
  cbn [take] in Hl.
  assert (Hsame : crc16_loop (b0 :: b1 :: b2 :: b3 :: b4 :: rest) 5 255 255
                  = crc16_loop [b0; b1; b2; b3; b4] 5 255 255).
  { cbn [crc16_loop].
    repeat (destruct (read auchCRCHi _ TableOverrun); cbn [bind]; [| reflexivity];
            destruct (read auchCRCLo _ TableOverrun); cbn [bind]; [| reflexivity]).
    reflexivity. }
  rewrite Hsame, Hl. cbn [bind fst snd]. f_equal. apply u16_id.
  apply (crc16_spec_range [b0; b1; b2; b3; b4]).
Qed.

Lemma crc_ok_cells b0 b1 b2 b3 b4 b5 b6 rest :
  Forall is_u8 [b0; b1; b2; b3; b4] ->
  crc_ok (b0 :: b1 :: b2 :: b3 :: b4 :: b5 :: b6 :: rest)
    = (crc16_spec [b0; b1; b2; b3; b4] =? b5 * 256 + b6).
Proof.
  intros Hb. unfold crc_ok. rewrite crc16_cells by exact Hb. reflexivity.
Qed.

(** Closes [Forall is_u8] goals over explicit lists. *)
Ltac solve_bytes :=
  repeat match goal with |- Forall _ _ => constructor end;
  first [assumption | unfold is_u8; lia].

Lemma corruption_fails (buf : list Z) (i : nat) (v : Z) :
  length buf = 9%nat -> Forall is_u8 buf ->
  header_ok buf && crc_ok buf = true ->
  (i < 7)%nat -> is_u8 v -> v <> byte_at buf i ->
  header_ok (<[i:=v]> buf) && crc_ok (<[i:=v]> buf) = false.
Proof.
  intros Hlen Hb Hok Hi Hv Hne.
  destruct buf as [| b0 buf]; [discriminate |].
  do 8 (destruct buf as [| ? buf]; [discriminate |]).
  destruct buf; [| discriminate].
  repeat match goal with H : Forall _ (_ :: _) |- _ => inversion H; clear H; subst end.
  apply andb_true_iff in Hok as [Hh Hc].
  unfold header_ok, byte_at in Hh. simpl in Hh.
  apply andb_true_iff in Hh as [Hh Hh2]. apply andb_true_iff in Hh as [Hh0 Hh1].
  apply Z.eqb_eq in Hh0, Hh1, Hh2. subst.
  rewrite crc_ok_cells in Hc by solve_bytes.
  apply Z.eqb_eq in Hc.
  do 7 (destruct i as [| i]; [shelve |]). lia.
  Unshelve.
  all: unfold byte_at in Hne; simpl in Hne; cbn [insert list_insert].
  - unfold header_ok, byte_at. simpl.
    destruct (Z.eqb_spec v 1); [contradiction | reflexivity].
  - unfold header_ok, byte_at. simpl.
    destruct (Z.eqb_spec v 3); [contradiction | reflexivity].
  - unfold header_ok, byte_at. simpl.
    destruct (Z.eqb_spec v 2); [contradiction | reflexivity].
  - rewrite crc_ok_cells by solve_bytes.
    apply andb_false_iff. right. apply Z.eqb_neq. rewrite <- Hc.
    apply (crc16_spec_single_byte [1; 3; 2] [_]); try assumption; solve_bytes.
  - rewrite crc_ok_cells by solve_bytes.
    apply andb_false_iff. right. apply Z.eqb_neq. rewrite <- Hc.
    apply (crc16_spec_single_byte [1; 3; 2; _] []); try assumption; solve_bytes.
  - rewrite crc_ok_cells by solve_bytes.
    apply andb_false_iff. right. apply Z.eqb_neq. unfold is_u8 in *. lia.
  - rewrite crc_ok_cells by solve_bytes.
    apply andb_false_iff. right. apply Z.eqb_neq. unfold is_u8 in *. lia.
Qed.

Lemma main_validate_rejects s :
  wf s -> header_ok (receBuf s) && crc_ok (receBuf s) = false ->
  exists s', main_validate s = Ok s' /\ Rressure s' = Rressure s /\ hw s' = hw s.
Proof.
  intros Hwf Hfail.
  destruct (main_validate_cases s Hwf) as (c & Hc & _ & Hv).
  rewrite <- (crc_ok_eq _ _ Hc) in Hv. eexists. split; [exact Hv |].
  destruct (header_ok (receBuf s)); [| auto].
  destruct (crc_ok (receBuf s)); [discriminate |].
  destruct s; simpl; auto.
Qed.

(** X13.  No single wrong byte gets through.  Take a buffer the validator
    accepts and replace any one of its first seven bytes by a different
    value: the validator then stores no pressure and writes nothing to the
    display. *)
Theorem single_byte_corruption_is_rejected (s : state) (i : nat) (v : Z) :
  wf s -> header_ok (receBuf s) && crc_ok (receBuf s) = true ->
  (i < 7)%nat -> is_u8 v -> v <> byte_at (receBuf s) i ->
  exists s',
    main_validate (set_receBuf (<[i:=v]> (receBuf s)) s) = Ok s' /\
    Rressure s' = Rressure s /\ hw s' = hw s.
Proof.
  intros Hwf Hok Hi Hv Hne.
  pose proof (corruption_fails (receBuf s) i v (wf_len s Hwf) (wf_buf s Hwf) Hok Hi Hv Hne)
    as Hfail.
  assert (Hwf2 : wf (set_receBuf (<[i:=v]> (receBuf s)) s)).
  { destruct Hwf as [Hlen Hb Hc Ht Hg]. destruct s; simpl in *.
    constructor; simpl; try assumption.
    - rewrite length_insert. exact Hlen.
    - apply Forall_insert; assumption. }
  destruct (main_validate_rejects _ Hwf2) as (s' & Hv' & Hp & Hhw).
  { destruct s; exact Hfail. }
  exists s'. split; [exact Hv' |]. destruct s; simpl in *. auto.
Qed.

Lemma single_byte_corruption_is_rejected_witness :
  exists s',
    main_validate (set_receBuf (<[4%nat:=0x2D]> [0x01; 0x03; 0x02; 0x01; 0x2C; 0xB8; 0x09; 0; 0])
                     (with_buffer [0x01; 0x03; 0x02; 0x01; 0x2C; 0xB8; 0x09; 0; 0])) = Ok s' /\
    Rressure s' = 0 /\ hw s' = [].
Proof.
  refine (single_byte_corruption_is_rejected
            (with_buffer [0x01; 0x03; 0x02; 0x01; 0x2C; 0xB8; 0x09; 0; 0]) 4 0x2D _ _ _ _ _).
  - apply wf_with_buffer; reflexivity.
  - reflexivity.
  - lia.
  - unfold is_u8. lia.
  - vm_compute. discriminate.
Defined.

(** X14.  The validator looks at cells 0 to 6 of the buffer only: whatever
    cells 7 and 8 hold (an eighth or ninth byte that came in, or leftovers),
    the stored pressure, the display trace and [crcData] come out the
    same. *)
Theorem validator_ignores_cells_7_and_8 (s : state) (x y : Z) :
  wf s -> is_u8 x -> is_u8 y ->
  exists r r2,
    main_validate s = Ok r /\
    main_validate (set_receBuf (take 7 (receBuf s) ++ [x; y]) s) = Ok r2 /\
    Rressure r2 = Rressure r /\ hw r2 = hw r /\ crcData r2 = crcData r.
Proof.
  intros Hwf Hx Hy.
  destruct (wf_buf_cells s Hwf) as (b0 & b1 & b2 & b3 & b4 & b5 & b6 & b7 & b8 & Hb & Hu8).
  repeat match goal with H : Forall _ (_ :: _) |- _ => inversion H; clear H; subst end.
  assert (Hb2 : take 7 (receBuf s) ++ [x; y] = [b0; b1; b2; b3; b4; b5; b6; x; y])
    by (rewrite Hb; reflexivity).
  rewrite Hb2. set (buf2 := [b0; b1; b2; b3; b4; b5; b6; x; y]).
  assert (Hwf2 : wf (set_receBuf buf2 s)).
  { destruct Hwf as [Hlen Hbuf Hc Ht Hg].
    constructor; try assumption; [reflexivity |].
    change (receBuf (set_receBuf buf2 s)) with buf2. unfold buf2. solve_bytes. }
  destruct (main_validate_cases s Hwf) as (c & Hc & _ & Hv).
  destruct (main_validate_cases _ Hwf2) as (c2 & Hc2 & _ & Hv2).
  rewrite <- (crc_ok_eq _ _ Hc) in Hv. rewrite <- (crc_ok_eq _ _ Hc2) in Hv2.
  change (receBuf (set_receBuf buf2 s)) with buf2 in Hc2, Hv2.
  rewrite Hb in Hc. unfold buf2 in Hc2.
  rewrite crc16_cells in Hc, Hc2 by solve_bytes.
  injection Hc as <-. injection Hc2 as <-.
  assert (Eh : header_ok buf2 = header_ok (receBuf s)) by (rewrite Hb; reflexivity).
  assert (Ec : crc_ok buf2 = crc_ok (receBuf s)).
  { rewrite Hb. unfold buf2. rewrite !crc_ok_cells by solve_bytes. reflexivity. }
  rewrite Eh, Ec in Hv2.
  eexists. eexists. split; [exact Hv |]. split; [exact Hv2 |].
  destruct (header_ok (receBuf s)); [| destruct s; auto].
  destruct (crc_ok (receBuf s)); [| destruct s; auto].
  destruct (hw_accepted_chunk (crc16_spec [b0; b1; b2; b3; b4]) s Hwf) as (Hh1 & Hp1 & _).
  destruct (hw_accepted_chunk (crc16_spec [b0; b1; b2; b3; b4]) _ Hwf2) as (Hh2 & Hp2 & _).
  change (receBuf (set_receBuf buf2 s)) with buf2 in Hh2, Hp2.
  change (hw (set_receBuf buf2 s)) with (hw s) in Hh2.
  rewrite Hh1, Hp1, Hh2, Hp2, Hb.
  split; [reflexivity |]. split; [reflexivity |]. destruct s; reflexivity.
Qed.

Lemma validator_ignores_cells_7_and_8_witness :
  exists r r2,
    main_validate (with_buffer [0x01; 0x03; 0x02; 0x01; 0x2C; 0xB8; 0x09; 0; 0]) = Ok r /\
    main_validate (set_receBuf [0x01; 0x03; 0x02; 0x01; 0x2C; 0xB8; 0x09; 0xAA; 0x55]
                     (with_buffer [0x01; 0x03; 0x02; 0x01; 0x2C; 0xB8; 0x09; 0; 0])) = Ok r2 /\
    Rressure r2 = Rressure r /\ hw r2 = hw r /\ crcData r2 = crcData r.
Proof.
  refine (validator_ignores_cells_7_and_8
            (with_buffer [0x01; 0x03; 0x02; 0x01; 0x2C; 0xB8; 0x09; 0; 0]) 0xAA 0x55 _ _ _).
  - apply wf_with_buffer; reflexivity.
  - unfold is_u8. lia.
  - unfold is_u8. lia.
Defined.

(** ** The running system *)

Lemma Timer0_settled s : settled s -> settled (Timer0 s).
Proof.
  intros (Hwf & Ht & Hg & Hf & Hu & Hp & Hc).
  split; [apply Timer0_wf, Hwf |].
  pose proof (wf_timeout s Hwf) as Ht0. pose proof (wf_gcount s Hwf) as Hg0.
  unfold is_u8 in Ht0. unfold Timer0.
  destruct s as [fl buf to cnt fs pr gc cd t]; simpl in *.
  rewrite (u8_id (to + 1)) by (unfold is_u8; lia).
  rewrite (u16_id (gc + 1)) by lia.
  destruct (Z.gtb_spec (to + 1) 100); simpl;
    destruct (Z.gtb_spec (gc + 1) 100); simpl; repeat split; auto; lia.
Qed.

Lemma UartInt_settled TI RI SBUF s s' :
  settled s -> UartInt TI RI SBUF s = Ok s' -> settled s'.
Proof.
  intros (Hwf & Ht & Hg & Hf & Hu & Hp & Hc) H.
  split; [eapply UartInt_wf; eassumption |].
  unfold UartInt in H. destruct s as [fl buf to cnt fs pr gc cd t]; simpl in *.
  destruct TI, RI; simpl in H;
    try (injection H as <-; simpl; repeat split; auto; lia);
    (destruct ((0 <=? cnt) && (cnt <? Z.of_nat (length buf))); simpl in H; [| discriminate];
     injection H as <-; simpl; repeat split; auto; lia).
Qed.

Lemma handle_settled e s s' : settled s -> handle e s = Ok s' -> settled s'.
Proof.
  destruct e as [| TI RI SBUF]; simpl; intros Hs H.
  - injection H as <-. apply Timer0_settled, Hs.
  - eapply UartInt_settled; eassumption.
Qed.

Lemma run_irqs_settled batch : forall s s',
  settled s -> run_irqs batch s = Ok s' -> settled s'.
Proof.
  induction batch as [| e batch IH]; intros s s' Hs; cbn [run_irqs].
  - intros [= <-]. exact Hs.
  - destruct (handle e s) as [s1 |] eqn:He; cbn [bind]; [| discriminate].
    apply IH. eapply handle_settled; eassumption.
Qed.

Lemma main_wait_settled evs : forall s s1 evs1,
  settled s -> main_wait evs s = Ok (s1, evs1) -> settled s1.
Proof.
  induction evs as [| batch evs IH]; intros s s1 evs1 Hs H; rewrite main_wait_eq in H;
    (destruct (receCount s <=? 7); [| injection H as <- <-; exact Hs]);
    (destruct (receTimeOut s >=? 10); [injection H as <- <-; exact Hs |]).
  - discriminate.
  - destruct (run_irqs batch s) as [s' |] eqn:He; cbn [bind] in H; [| discriminate].
    eapply IH; [| exact H]. eapply run_irqs_settled; eassumption.
Qed.

Lemma hw_main_send s :
  hw (main_send s) = hw s \/ hw (main_send s) = hw s ++ poll_chunk.
Proof.
  unfold main_send. destruct (fasongbiaozhi s =? 1); [right | left; reflexivity].
  destruct s as [fl buf to cnt fs pr gc cd t]. run_updates.
  rewrite <- !app_assoc. reflexivity.
Qed.

Lemma main_send_settled s : settled s -> settled (main_send s).
Proof.
  intros Hs. unfold main_send.
  destruct (fasongbiaozhi s =? 1); [| exact Hs].
  destruct Hs as (Hwf & Ht & Hg & Hf & Hu & Hp & Hc).
  destruct Hwf as [Hlen Hbuf Hcn Hto Hgc].
  destruct s as [fl buf to cnt fs pr gc cd t]; simpl in *.
  split; [constructor; simpl; auto; lia |]. simpl. repeat split; auto; lia.
Qed.

Lemma main_validate_settled s s' :
  settled s -> main_validate s = Ok s' ->
  settled s' /\
  (hw s' = hw s \/ exists p, 0 <= p < 65536 /\ hw s' = hw s ++ display_chunk p).
Proof.
  intros Hs Hv. pose proof Hs as (Hwf & Ht & Hg & Hf & Hu & Hp & Hc).
  destruct (main_validate_cases s Hwf) as (c & _ & Hr & Hv').
  rewrite Hv in Hv'. injection Hv' as ->.
  destruct (hw_accepted_chunk c s Hwf) as (Hhw & Hpr & Hrange).
  destruct (header_ok (receBuf s));
    [| split; [exact Hs | left; reflexivity]].
  clear Hs.
  destruct (c =? byte_at (receBuf s) 5 * 256 + byte_at (receBuf s) 6).
  - split; [| right; eexists; split; [exact Hrange | exact Hhw]].
    rewrite <- Hpr in Hrange. destruct Hwf as [Hlen Hbuf Hcn Hto Hgc].
    destruct s as [fl buf to cnt fs pr gc cd t]; simpl in *.
    split; [constructor; simpl; auto |]. simpl. repeat split; auto; lia.
  - split; [| left; destruct s; reflexivity].
    destruct Hwf as [Hlen Hbuf Hcn Hto Hgc].
    destruct s as [fl buf to cnt fs pr gc cd t]; simpl in *.
    split; [constructor; simpl; auto |]. simpl. repeat split; auto; lia.
Qed.

Lemma main_rx_reset_settled s : settled s -> settled (main_rx_reset s).
Proof.
  intros (Hwf & Ht & Hg & Hf & Hu & Hp & Hc).
  destruct Hwf as [Hlen Hbuf Hcn Hto Hgc].
  destruct s as [fl buf to cnt fs pr gc cd t]; simpl in *.
  split; [constructor; simpl; auto; unfold is_u8; lia |].
  simpl. repeat split; auto; lia.
Qed.

Lemma main_receive_settled evs s s' evs' :
  settled s -> main_receive evs s = Ok (s', evs') ->
  settled s' /\
  (hw s' = hw s \/ exists p, 0 <= p < 65536 /\ hw s' = hw s ++ display_chunk p).
Proof.
  intros Hs. unfold main_receive.
  destruct (UART1_ucRec_Flag s =? TRUE);
    [| intros [= <- <-]; split; [exact Hs | left; reflexivity]].
  destruct (main_wait evs s) as [[s1 evs1] |] eqn:Hw; cbn [bind fst snd]; [| discriminate].
  destruct (main_validate s1) as [s2 |] eqn:Hv; cbn [bind]; [| discriminate].
  intros [= <- <-].
  pose proof (main_wait_settled _ _ _ _ Hs Hw) as Hs1.
  destruct (main_wait_exit _ _ _ _ Hw) as (_ & Hhw1 & _).
  destruct (main_validate_settled _ _ Hs1 Hv) as (Hs2 & Hhw2).
  split; [apply main_rx_reset_settled, Hs2 |].
  destruct (main_rx_reset_fields s2) as (_ & _ & -> & _). rewrite <- Hhw1. exact Hhw2.
Qed.

(** Both invariants at once, along the runs of the system. *)
Lemma reachable_invariants s :
  reachable s ->
  settled s /\
  exists s0 chunks,
    main_init reset_state = Some s0 /\ Forall is_chunk chunks /\
    hw s = hw s0 ++ concat chunks.
Proof.
  induction 1 as [s0 Hboot | s s' Hreach (Hs & s0 & chunks & Hboot & Hch & Hhw) Hstep].
  - destruct main_init_boots as (b & Hb & Hwf & Ht & Hg & Hf & Hu & Hp & Hc & _).
    rewrite Hboot in Hb. injection Hb as <-.
    split; [split; [exact Hwf | repeat split; auto; lia] |].
    exists s0, (@nil (list effect)). split; [exact Hboot |]. split; [constructor |].
    simpl. rewrite app_nil_r. reflexivity.
  - destruct Hstep as [e s s' He | evs evs' s s' Hpass].
    + split; [eapply handle_settled; eassumption |].
      destruct (handle_frame _ _ _ He) as (Hh & _).
      exists s0, chunks. rewrite Hh. auto.
    + unfold main_loop_body in Hpass.
      pose proof (main_send_settled s Hs) as Hs1.
      destruct (main_receive_settled _ _ _ _ Hs1 Hpass) as (Hs2 & Hdisp).
      split; [exact Hs2 |].
      assert (Hsend : exists cs, Forall is_chunk cs /\ hw (main_send s) = hw s ++ concat cs).
      { destruct (hw_main_send s) as [E | E].
        - exists (@nil (list effect)). split; [constructor |].
          simpl. rewrite app_nil_r. exact E.
        - exists [poll_chunk]. split; [repeat constructor |].
          cbn [concat]. rewrite app_nil_r. exact E. }
      destruct Hsend as (cs & Hcs & Ehw).
      assert (Hrecv : exists ds, Forall is_chunk ds /\ hw s' = hw (main_send s) ++ concat ds).
      { destruct Hdisp as [E | (p & Hp & E)].
        - exists (@nil (list effect)). split; [constructor |].
          simpl. rewrite app_nil_r. exact E.
        - exists [display_chunk p]. split.
          + constructor; [right; exists p; auto | constructor].
          + cbn [concat]. rewrite app_nil_r. exact E. }
      destruct Hrecv as (ds & Hds & Ehw').
      exists s0, (chunks ++ cs ++ ds). split; [exact Hboot |].
      split; [repeat (apply Forall_app; split); assumption |].
      rewrite Ehw', Ehw, Hhw, !concat_app, <- !app_assoc. reflexivity.
Qed.



(** X16.  Everything the running firmware does to its peripherals after
    start-up is a sequence of two kinds of action, each complete: a poll
    (driver to transmit, the eight request bytes, driver to receive) and a
    display update (cursor command 0xC5 and five decimal digits of a 16-bit
    value).  Nothing else is ever written to the LCD or sent on the line. *)
Theorem reachable_trace_is_polls_and_updates (s : state) :
  reachable s ->
  exists s0 chunks,
    main_init reset_state = Some s0 /\ Forall is_chunk chunks /\
    hw s = hw s0 ++ concat chunks.
Proof. intros H. apply (reachable_invariants s H). Qed.

Lemma reachable_trace_is_polls_and_updates_witness :
  exists s0 s1 chunks,
    main_init reset_state = Some s0 /\
    main_loop_body [] (ticks 101 s0) = Ok (s1, []) /\
    Forall is_chunk chunks /\ hw s1 = hw s0 ++ concat chunks.
Proof.
  destruct main_init_boots as (s0 & Hboot & _).
  assert (Hpass : main_loop_body [] (ticks 101 s0) = Ok (main_send (ticks 101 s0), [])).
  { vm_compute in Hboot. injection Hboot as <-. vm_compute. reflexivity. }
  assert (Hticks : forall n, reachable (ticks n s0)).
  { induction n as [| n IH]; [apply reach_boot, Hboot |].
    rewrite ticks_S. apply (reach_step _ _ IH). apply (step_irq IrqTimer0). reflexivity. }
  destruct (reachable_trace_is_polls_and_updates (main_send (ticks 101 s0)))
    as (s0' & chunks & Hboot' & Hch & Hhw).
  { apply (reach_step _ _ (Hticks 101%nat)). eapply step_pass. exact Hpass. }
  rewrite Hboot in Hboot'. injection Hboot' as <-.
  exists s0, (main_send (ticks 101 s0)), chunks. auto.
Defined.

Lemma tx_bytes_chunks (chunks : list (list effect)) :
  Forall is_chunk chunks ->
  exists n : nat, tx_bytes (concat chunks) = concat (replicate n request_frame).
Proof.
  induction 1 as [| c chunks Hc _ (n & IH)].
  - exists 0%nat. reflexivity.
  - cbn [concat]. rewrite tx_bytes_app, IH.
    destruct Hc as [-> | (p & _ & ->)].
    + exists (S n). reflexivity.
    + exists n. reflexivity.
Qed.

(** X17.  The running firmware never puts anything on the RS485 line but
    whole poll requests: in every reachable state the bytes transmitted so
    far are the request frame 01 03 00 00 00 01 84 0A repeated some number
    of times. *)
Theorem reachable_transmits_only_requests (s : state) :
  reachable s ->
  exists n : nat, tx_bytes (hw s) = concat (replicate n request_frame).
Proof.
  intros H. destruct (reachable_invariants s H) as (_ & s0 & chunks & Hboot & Hch & Hhw).
  destruct (tx_bytes_chunks chunks Hch) as (n & Hn).
  exists n. rewrite Hhw, tx_bytes_app, Hn.
  vm_compute in Hboot. injection Hboot as <-. reflexivity.
Qed.

Lemma reachable_transmits_only_requests_witness :
  exists s0 n,
    main_init reset_state = Some s0 /\
    tx_bytes (hw (main_send (ticks 101 s0))) = concat (replicate n request_frame).
Proof.
  destruct main_init_boots as (s0 & Hboot & _).
  assert (Hpass : main_loop_body [] (ticks 101 s0) = Ok (main_send (ticks 101 s0), [])).
  { vm_compute in Hboot. injection Hboot as <-. vm_compute. reflexivity. }
  assert (Hticks : forall n, reachable (ticks n s0)).
  { induction n as [| n IH]; [apply reach_boot, Hboot |].
    rewrite ticks_S. apply (reach_step _ _ IH). apply (step_irq IrqTimer0). reflexivity. }
  destruct (reachable_transmits_only_requests (main_send (ticks 101 s0))) as (n & Hn).
  { apply (reach_step _ _ (Hticks 101%nat)). eapply step_pass. exact Hpass. }
  exists s0, n. auto.
Defined.



